(** * NoCap: the statement verification and consensus pipeline

    A shallow embedding of [src/services/verification-service.ts]
    (class [VerificationService]) and of the part of
    [src/config/api-config.ts] it reads.

    The service talks to five HTTP providers and works on whatever JSON they
    send back, so the embedding is untyped where the code is: a provider's
    answer is a [json] value, a JavaScript value is [option json] ([None] is
    [undefined]), and numbers are IEEE 754 binary64 floats, as in the
    language. Effects are explicit: an asynchronous function is a [Task],
    which threads the log of the requests issued so far and ends either
    normally or by throwing. *)

From Stdlib Require Import Floats Uint63 ZArith QArith Ascii String DecimalString.
From stdpp Require Import base option list strings.

#[local] Set Warnings "-inexact-float,-register-all".
#[local] Open Scope string_scope.
#[local] Open Scope list_scope.

(** ** JavaScript values *)

(** What [JSON.parse] and [response.json()] produce. An object is the list
    of its fields in insertion order, with distinct keys. *)
Inductive json : Type :=
  | JNull
  | JBool (b : bool)
  | JNum (x : float)
  | JStr (s : string)
  | JArr (items : list json)
  | JObj (fields : list (string * json)).

(** A JavaScript value that came out of JSON, or [undefined]. *)
Abbreviation value := (option json).
Abbreviation undefined := (@None json).

Definition Str (s : string) : value := Some (JStr s).
Definition Num (x : float) : value := Some (JNum x).

(** What a [throw] carries: an object that is [instanceof Error] (Error,
    TypeError, SyntaxError, ...) with its [message], or anything else. *)
Inductive thrown : Type :=
  | ErrorObject (message : string)
  | NonError.

(** How a piece of code ends. *)
Inductive completion (A : Type) : Type :=
  | Normal (a : A)
  | Throw (e : thrown).
Arguments Normal {A} a.
Arguments Throw {A} e.

(** A property key: [v.name] or [v[i]]. *)
Inductive key : Type :=
  | Named (s : string)
  | Index (i : nat).

(** The number of a length or of a count. *)
Definition Number_of_nat (n : nat) : float :=
  PrimFloat.of_uint63 (Uint63.of_Z (Z.of_nat n)).

(** The decimal numeral of a small natural number, as [String(i)] prints it. *)
Definition decimal (n : nat) : string := NilZero.string_of_uint (Nat.to_uint n).

(** The built-ins of the engine that the source calls and does not define. *)
Record Runtime : Type := {
  (** [Number.prototype.toString] *)
  Number_toString : float -> string;
  (** the [StringToNumber] conversion behind [ToNumber] *)
  StringToNumber : string -> float;
  (** [JSON.parse]: a value, or a thrown SyntaxError *)
  JSON_parse : string -> completion json;
  (** the message of the TypeError of a property read on null or undefined *)
  TypeError_message : value -> key -> string;
}.

Definition key_name (k : key) : string :=
  match k with Named s => s | Index i => decimal i end.

Fixpoint assoc (k : string) (fields : list (string * json)) : value :=
  match fields with
  | [] => undefined
  | (k', v) :: rest => if String.eqb k k' then Some v else assoc k rest
  end.

Section Values.
Variable rt : Runtime.

(** [ToString] on what JSON can produce; an array joins its elements with
    commas, a null element printing as the empty string. *)
Fixpoint ToString_json (v : json) : string :=
  match v with
  | JNull => "null"
  | JBool true => "true"
  | JBool false => "false"
  | JNum x => Number_toString rt x
  | JStr s => s
  | JArr items =>
      String.concat ","
        (List.map (fun e => match e with JNull => "" | _ => ToString_json e end) items)
  | JObj _ => "[object Object]"
  end.

Definition ToString (v : value) : string :=
  match v with
  | None => "undefined"
  | Some j => ToString_json j
  end.

Definition ToNumber (v : value) : float :=
  match v with
  | None => nan
  | Some JNull => 0
  | Some (JBool true) => 1
  | Some (JBool false) => 0
  | Some (JNum x) => x
  | Some (JStr s) => StringToNumber rt s
  | Some j => StringToNumber rt (ToString_json j)
  end.

(** [ToBoolean]. *)
Definition truthy (v : value) : bool :=
  match v with
  | None | Some JNull => false
  | Some (JBool b) => b
  | Some (JNum x) => negb (PrimFloat.eqb x 0 || PrimFloat.is_nan x)
  | Some (JStr s) => negb (String.eqb s "")
  | Some (JArr _) | Some (JObj _) => true
  end.

(** [a || b]. *)
Definition or_else (a b : value) : value := if truthy a then a else b.

(** [v === "s"]. *)
Definition is_string (s : string) (v : value) : bool :=
  match v with
  | Some (JStr s') => String.eqb s' s
  | _ => false
  end.

(** [v > 0]. *)
Definition gt_zero (v : value) : bool := PrimFloat.ltb 0 (ToNumber v).

(** A property of a value other than null and undefined: the field of an
    object, the length or an element of an array or of a string (taken as
    its sequence of code units), and [undefined] otherwise. The names read
    are those of the source, none of which a prototype defines. *)
Definition member (j : json) (k : key) : value :=
  match j with
  | JObj fields => assoc (key_name k) fields
  | JArr items =>
      match k with
      | Index i => items !! i
      | Named n =>
          if String.eqb n "length"
          then Num (Number_of_nat (length items)) else undefined
      end
  | JStr s =>
      match k with
      | Index i => (fun c => JStr (String c EmptyString)) <$> String.get i s
      | Named n =>
          if String.eqb n "length"
          then Num (Number_of_nat (String.length s)) else undefined
      end
  | JNull | JBool _ | JNum _ => undefined
  end.

(** A property read, [v.name] or [v[i]]: a TypeError on null and
    undefined. *)
Definition get (v : value) (k : key) : completion value :=
  match v with
  | None | Some JNull => Throw (ErrorObject (TypeError_message rt v k))
  | Some j => Normal (member j k)
  end.
End Values.

(** ** Configuration ([src/config/api-config.ts])

    The entries of [apiConfig] that the verification service reads. Every
    field is a string: an unset environment variable leaves an API key empty
    ([import.meta.env.X || ""]). *)

Record ApiConfig : Type := {
  anthropic_apiKey : string;
  anthropic_baseUrl : string;
  anthropic_model : string;
  gemini_apiKey : string;
  gemini_baseUrl : string;
  gemini_model : string;
  fetchAI_apiKey : string;
  fetchAI_agentverseUrl : string;
  fetchAI_asiOneUrl : string;
  brightData_apiKey : string;
  brightData_baseUrl : string;
  lavaGateway_apiKey : string;
  lavaGateway_baseUrl : string;
}.

(** [!apiKey] on a string: only the empty string is falsy. *)
Definition missing (apiKey : string) : bool := String.eqb apiKey "".

(** ** The network and asynchronous code *)

(** The arguments of one [fetch] call. [body] is the value handed to
    [JSON.stringify]. *)
Record Request : Type := {
  url : string;
  method : string;
  headers : list (string * string);
  body : json;
}.

(** What the code reads of a [Response]: [ok], [statusText], and the outcome
    of [response.json()], which rejects when the body is not JSON. *)
Record Response : Type := {
  ok : bool;
  statusText : string;
  json_body : completion json;
}.

(** The world outside: what [fetch] settles with, given the requests issued
    before and the request itself. [Throw] is a rejected promise (a network
    error). Every call settles; a request that hangs forever is outside the
    model. *)
Definition Network : Type := list Request -> Request -> completion Response.

(** An asynchronous computation: it extends the log of issued requests and
    completes normally or throws (a rejected promise). *)
Definition Task (A : Type) : Type := list Request -> completion A * list Request.

Definition ret {A} (a : A) : Task A := fun log => (Normal a, log).

Definition throw {A} (e : thrown) : Task A := fun log => (Throw e, log).

Definition bind {A B} (c : Task A) (k : A -> Task B) : Task B :=
  fun log =>
    match c log with
    | (Normal a, log') => k a log'
    | (Throw e, log') => (Throw e, log')
    end.

(** [try { c } catch (error) { handler }]. *)
Definition try_catch {A} (c : Task A) (handler : thrown -> Task A) : Task A :=
  fun log =>
    match c log with
    | (Normal a, log') => (Normal a, log')
    | (Throw e, log') => handler e log'
    end.

(** A synchronous step that may throw. *)
Definition lift {A} (r : completion A) : Task A := fun log => (r, log).

(** [await fetch(...)]. *)
Definition fetch (net : Network) (req : Request) : Task Response :=
  fun log => (net log req, (log ++ [req])%list).

Notation "x <- c ;; k" := (bind c (fun x => k))
  (at level 100, c at next level, right associativity).

(** [error instanceof Error ? error.message : "Unknown error"]. *)
Definition error_message (error : thrown) : string :=
  match error with
  | ErrorObject message => message
  | NonError => "Unknown error"
  end.

(** [Promise.all]: every task is started, in order, before any of them
    settles; each one's outcome is then delivered in the order the scheduler
    picks, and a fulfilled promise writes its value at its own index of
    [values]. The first rejection delivered rejects the whole. *)
Fixpoint start_all {A} (tasks : list (Task A)) (log : list Request)
    : list (completion A) * list Request :=
  match tasks with
  | [] => ([], log)
  | t :: rest =>
      let (r, log1) := t log in
      let (rs, log2) := start_all rest log1 in
      (r :: rs, log2)
  end.

(** [choose step] picks which of the promises still pending settles at
    [step], counted among the pending ones and taken modulo their number, so
    that every [choose] is a completion order and every completion order is
    some [choose]. *)
Fixpoint settle_all {A} (choose : nat -> nat) (outcomes : list (completion A))
    (pending : list nat) (values : list (option A)) (step fuel : nat)
    : completion (list (option A)) :=
  match fuel, pending with
  | S fuel', _ :: _ =>
      let k := choose step mod length pending in
      match pending !! k with
      | Some i =>
          match outcomes !! i with
          | Some (Normal v) =>
              settle_all choose outcomes (delete k pending) (<[i := Some v]> values)
                (S step) fuel'
          | Some (Throw e) => Throw e
          | None => Normal values
          end
      | None => Normal values
      end
  | _, _ => Normal values
  end.

Definition Promise_all {A} (choose : nat -> nat) (tasks : list (Task A))
    : Task (list (option A)) :=
  fun log =>
    let (outcomes, log') := start_all tasks log in
    let n := length outcomes in
    (settle_all choose outcomes (seq 0 n) (replicate n None) 0 n, log').

(** ** The data model of the service *)

Record VerificationAgent : Type := {
  name : string;
  verdict : value;
  confidence : value;
  reasoning : value;
}.

(** The object [{ verdict, consensusScore }] of the two consensus functions
    and of [VerificationResult.lavaGatewayConsensus]. *)
Record Consensus : Type := {
  consensus_verdict : value;
  consensusScore : value;
}.

Inductive ConsensusLabel : Type :=
  | verified_true
  | verified_false
  | inconclusive.

Record VerificationResult : Type := {
  statementId : string;
  isFalse : bool;
  consensus : ConsensusLabel;
  correctInformation : value;
  agents : list VerificationAgent;
  lavaGatewayConsensus : Consensus;
}.

(** Everything outside the code that one call of [verifyStatement] depends
    on. *)
Record Env : Type := {
  runtime : Runtime;
  apiConfig : ApiConfig;
  network : Network;
  (** what [crypto.randomUUID()] returns in this call *)
  randomUUID : string;
  (** the order in which the four adapter promises settle *)
  settles : nat -> nat;
}.

(** ** Text of the prompts *)

Definition dq : string := String (ascii_of_nat 34) EmptyString.
Definition nl : string := String (ascii_of_nat 10) EmptyString.
Definition quoted (s : string) : string := dq +:+ s +:+ dq.

Definition factCheckPrompt (statement : string) : string :=
  "You are a fact-checking expert. Analyze this statement and determine if it is factually TRUE or FALSE. If you cannot determine with confidence, respond INCONCLUSIVE."
  +:+ nl +:+ nl
  +:+ "Statement: " +:+ quoted statement +:+ nl +:+ nl
  +:+ "Respond in JSON format:" +:+ nl
  +:+ "{" +:+ nl
  +:+ "  " +:+ quoted "verdict" +:+ ": " +:+ quoted "true" +:+ " | "
      +:+ quoted "false" +:+ " | " +:+ quoted "inconclusive" +:+ "," +:+ nl
  +:+ "  " +:+ quoted "confidence" +:+ ": 0.0-1.0," +:+ nl
  +:+ "  " +:+ quoted "reasoning" +:+ ": " +:+ quoted "brief explanation" +:+ nl
  +:+ "}".

Definition correctionPrompt (rt : Runtime) (falseStatement : string)
    (falseReasonings : list value) : string :=
  "This false statement was made: " +:+ quoted falseStatement +:+ nl +:+ nl
  +:+ "Multiple fact-checkers provided these explanations:" +:+ nl
  +:+ String.concat nl
        (imap (fun i r => decimal (i + 1) +:+ ". " +:+ ToString rt r) falseReasonings)
  +:+ nl +:+ nl
  +:+ "Provide a clear, concise correction (2-3 sentences max) that states the accurate information.".

(** ** The service ([class VerificationService]) *)

Section VerificationService.
Variable env : Env.

#[local] Abbreviation rt := (runtime env).
#[local] Abbreviation cfg := (apiConfig env).
#[local] Abbreviation net := (network env).

(** The agent every adapter returns without a key. *)
Definition notConfigured (agentName : string) : VerificationAgent :=
  {| name := agentName;
     verdict := Str "inconclusive";
     confidence := Num 0;
     reasoning := Str "API key not configured" |}.

(** The agent every adapter's [catch] returns ([console.error] only
    prints). *)
Definition failed (agentName : string) (error : thrown) : VerificationAgent :=
  {| name := agentName;
     verdict := Str "inconclusive";
     confidence := Num 0;
     reasoning := Str ("Error: " +:+ error_message error) |}.

Definition claudeRequest (max_tokens : float) (content : string) : Request :=
  {| url := anthropic_baseUrl cfg +:+ "/v1/messages";
     method := "POST";
     headers := [("x-api-key", anthropic_apiKey cfg);
                 ("anthropic-version", "2023-06-01");
                 ("Content-Type", "application/json")];
     body := JObj [("model", JStr (anthropic_model cfg));
                   ("max_tokens", JNum max_tokens);
                   ("messages",
                    JArr [JObj [("role", JStr "user"); ("content", JStr content)]])] |}.

(** [data.content[0].text], the text of a messages response. *)
Definition contentText (data : json) : completion value :=
  match get rt (Some data) (Named "content") with
  | Throw e => Throw e
  | Normal content =>
      match get rt content (Index 0) with
      | Throw e => Throw e
      | Normal block => get rt block (Named "text")
      end
  end.

Definition verifyWithClaude (statement : string) : Task VerificationAgent :=
  if missing (anthropic_apiKey cfg) then ret (notConfigured "Claude (Anthropic)")
  else
    try_catch
      (response <- fetch net (claudeRequest 1024 (factCheckPrompt statement)) ;;
       if negb (ok response)
       then throw (ErrorObject ("Claude API error: " +:+ statusText response))
       else
         data <- lift (json_body response) ;;
         text <- lift (contentText data) ;;
         result <- lift (JSON_parse rt (ToString rt text)) ;;
         v <- lift (get rt (Some result) (Named "verdict")) ;;
         c <- lift (get rt (Some result) (Named "confidence")) ;;
         r <- lift (get rt (Some result) (Named "reasoning")) ;;
         ret {| name := "Claude (Anthropic)";
                verdict := v; confidence := c; reasoning := r |})
      (fun error => ret (failed "Claude (Anthropic)" error)).

Definition fetchAIRequest (statement : string) : Request :=
  {| url := fetchAI_agentverseUrl cfg +:+ "/v1/verify";
     method := "POST";
     headers := [("Authorization", "Bearer " +:+ fetchAI_apiKey cfg);
                 ("Content-Type", "application/json")];
     body := JObj [("statement", JStr statement);
                   ("task", JStr "fact_verification")] |}.

Definition verifyWithFetchAI (statement : string) : Task VerificationAgent :=
  if missing (fetchAI_apiKey cfg) then ret (notConfigured "Fetch.ai")
  else
    try_catch
      (response <- fetch net (fetchAIRequest statement) ;;
       if negb (ok response)
       then throw (ErrorObject ("Fetch.ai API error: " +:+ statusText response))
       else
         data <- lift (json_body response) ;;
         v <- lift (get rt (Some data) (Named "verdict")) ;;
         c <- lift (get rt (Some data) (Named "confidence")) ;;
         r <- lift (get rt (Some data) (Named "reasoning")) ;;
         ret {| name := "Fetch.ai";
                verdict := or_else v (Str "inconclusive");
                confidence := or_else c (Num 0.8);
                reasoning := or_else r (Str "Fetch.ai agent verification") |})
      (fun error => ret (failed "Fetch.ai" error)).

Definition geminiRequest (statement : string) : Request :=
  {| url := gemini_baseUrl cfg +:+ "/v1beta/models/" +:+ gemini_model cfg
            +:+ ":generateContent?key=" +:+ gemini_apiKey cfg;
     method := "POST";
     headers := [("Content-Type", "application/json")];
     body := JObj [("contents",
                    JArr [JObj [("parts",
                                 JArr [JObj [("text", JStr (factCheckPrompt statement))]])]]);
                   ("generationConfig",
                    JObj [("temperature", JNum 0.1); ("maxOutputTokens", JNum 1024)])] |}.

Definition verifyWithGemini (statement : string) : Task VerificationAgent :=
  if missing (gemini_apiKey cfg) then ret (notConfigured "Gemini (Google)")
  else
    try_catch
      (response <- fetch net (geminiRequest statement) ;;
       if negb (ok response)
       then throw (ErrorObject ("Gemini API error: " +:+ statusText response))
       else
         data <- lift (json_body response) ;;
         candidates <- lift (get rt (Some data) (Named "candidates")) ;;
         candidate <- lift (get rt candidates (Index 0)) ;;
         content <- lift (get rt candidate (Named "content")) ;;
         parts <- lift (get rt content (Named "parts")) ;;
         part <- lift (get rt parts (Index 0)) ;;
         text <- lift (get rt part (Named "text")) ;;
         result <- lift (JSON_parse rt (ToString rt text)) ;;
         v <- lift (get rt (Some result) (Named "verdict")) ;;
         c <- lift (get rt (Some result) (Named "confidence")) ;;
         r <- lift (get rt (Some result) (Named "reasoning")) ;;
         ret {| name := "Gemini (Google)";
                verdict := v; confidence := c; reasoning := r |})
      (fun error => ret (failed "Gemini (Google)" error)).

Definition brightDataRequest (statement : string) : Request :=
  {| url := brightData_baseUrl cfg +:+ "/v1/search";
     method := "POST";
     headers := [("Authorization", "Bearer " +:+ brightData_apiKey cfg);
                 ("Content-Type", "application/json")];
     body := JObj [("query", JStr statement); ("num_results", JNum 5)] |}.

(** [data.results && data.results.length > 0], read as the condition it is
    used for. *)
Definition hasResults (data : json) : completion bool :=
  match get rt (Some data) (Named "results") with
  | Throw e => Throw e
  | Normal results =>
      if truthy results then
        match get rt results (Named "length") with
        | Throw e => Throw e
        | Normal len => Normal (gt_zero rt len)
        end
      else Normal false
  end.

Definition verifyWithBrightData (statement : string) : Task VerificationAgent :=
  if missing (brightData_apiKey cfg) then ret (notConfigured "Bright Data")
  else
    try_catch
      (response <- fetch net (brightDataRequest statement) ;;
       if negb (ok response)
       then throw (ErrorObject ("Bright Data API error: " +:+ statusText response))
       else
         data <- lift (json_body response) ;;
         found <- lift (hasResults data) ;;
         ret {| name := "Bright Data";
                verdict := Str (if found then "true" else "inconclusive");
                confidence := Num (if found then 0.75 else 0.3);
                reasoning := Str (if found then "Found supporting web sources"
                                  else "No conclusive web sources found") |})
      (fun error => ret (failed "Bright Data" error)).

(** [calculateLocalConsensus]: the vote count behind the gateway. *)
Definition falseCount (agents : list VerificationAgent) : nat :=
  length (List.filter (fun a => is_string "false" (verdict a)) agents).

Definition trueCount (agents : list VerificationAgent) : nat :=
  length (List.filter (fun a => is_string "true" (verdict a)) agents).

Definition inconclusiveCount (agents : list VerificationAgent) : nat :=
  length (List.filter (fun a => is_string "inconclusive" (verdict a)) agents).

Definition consensusThreshold : float := 0.6.

(** [count / totalVotes]. *)
Definition fraction (count totalVotes : nat) : float :=
  (Number_of_nat count / Number_of_nat totalVotes)%float.

Definition calculateLocalConsensus (agents : list VerificationAgent) : Consensus :=
  let totalVotes := length agents in
  if PrimFloat.leb consensusThreshold (fraction (falseCount agents) totalVotes) then
    {| consensus_verdict := Str "false";
       consensusScore := Num (fraction (falseCount agents) totalVotes) |}
  else if PrimFloat.leb consensusThreshold (fraction (trueCount agents) totalVotes) then
    {| consensus_verdict := Str "true";
       consensusScore := Num (fraction (trueCount agents) totalVotes) |}
  else
    {| consensus_verdict := Str "inconclusive";
       consensusScore :=
         Num (fraction
                (Nat.max (falseCount agents)
                   (Nat.max (trueCount agents) (inconclusiveCount agents)))
                totalVotes) |}.

(** An entry of an object literal handed to [JSON.stringify]: one whose
    value is [undefined] is left out. *)
Definition entry (k : string) (v : value) : list (string * json) :=
  match v with
  | Some j => [(k, j)]
  | None => []
  end.

Definition gatewayRequest (agents : list VerificationAgent) : Request :=
  {| url := lavaGateway_baseUrl cfg +:+ "/v1/consensus";
     method := "POST";
     headers := [("Authorization", "Bearer " +:+ lavaGateway_apiKey cfg);
                 ("Content-Type", "application/json")];
     body := JObj [("agents",
                    JArr (List.map
                            (fun a => JObj ([("name", JStr (name a))]
                                            ++ entry "verdict" (verdict a)
                                            ++ entry "confidence" (confidence a)))
                            agents))] |}.

Definition getLavaGatewayConsensus (agents : list VerificationAgent) : Task Consensus :=
  if missing (lavaGateway_apiKey cfg) then ret (calculateLocalConsensus agents)
  else
    try_catch
      (response <- fetch net (gatewayRequest agents) ;;
       if negb (ok response)
       then throw (ErrorObject ("Lava Gateway error: " +:+ statusText response))
       else
         data <- lift (json_body response) ;;
         v <- lift (get rt (Some data) (Named "verdict")) ;;
         score <- lift (get rt (Some data) (Named "score")) ;;
         ret {| consensus_verdict := v; consensusScore := score |})
      (fun error => ret (calculateLocalConsensus agents)).

(** The reasonings of the agents that voted false, those that are falsy
    (absent, empty) dropped. *)
Definition falseReasonings (agents : list VerificationAgent) : list value :=
  List.filter truthy
    (List.map reasoning
       (List.filter (fun a => is_string "false" (verdict a)) agents)).

Definition unavailable : string :=
  "The statement has been determined to be false, but specific corrections are unavailable.".

(** The remote attempt of [generateCorrectInformation]: [Some text] when
    the function returns from inside the [try], [None] when control reaches
    the fallback after it. *)
Definition synthesize (falseStatement : string) (reasonings : list value)
    : Task (option value) :=
  if missing (anthropic_apiKey cfg) then ret None
  else
    try_catch
      (response <- fetch net
                     (claudeRequest 512 (correctionPrompt rt falseStatement reasonings)) ;;
       if ok response then
         data <- lift (json_body response) ;;
         text <- lift (contentText data) ;;
         ret (Some text)
       else ret None)
      (fun error => ret None).

Definition generateCorrectInformation (falseStatement : string)
    (agents : list VerificationAgent) : Task value :=
  let reasonings := falseReasonings agents in
  if Nat.eqb (length reasonings) 0 then ret (Str unavailable)
  else
    attempt <- synthesize falseStatement reasonings ;;
    match attempt with
    | Some text => ret text
    | None => ret (Str ("Correction: " +:+ ToString rt (mjoin (reasonings !! 0))))
    end.

(** [verifyStatement]. An element of the joined array that were
    [undefined] would make the consensus step throw the TypeError of
    reading its [verdict]. *)
Definition verifyStatement (statement : string) : Task VerificationResult :=
  let statementId := randomUUID env in
  values <- Promise_all (settles env)
              [verifyWithClaude statement;
               verifyWithFetchAI statement;
               verifyWithGemini statement;
               verifyWithBrightData statement] ;;
  match values !! 0, values !! 1, values !! 2, values !! 3 with
  | Some (Some claudeResult), Some (Some fetchAIResult),
    Some (Some geminiResult), Some (Some brightDataResult) =>
      let agents := [claudeResult; fetchAIResult; geminiResult; brightDataResult] in
      lavaGatewayConsensus <- getLavaGatewayConsensus agents ;;
      let isFalse := is_string "false" (consensus_verdict lavaGatewayConsensus) in
      let consensus :=
        if is_string "true" (consensus_verdict lavaGatewayConsensus) then verified_true
        else if is_string "false" (consensus_verdict lavaGatewayConsensus)
             then verified_false
             else inconclusive in
      correctInformation <-
        (if isFalse then generateCorrectInformation statement agents
         else ret undefined) ;;
      ret {| statementId := statementId;
             isFalse := isFalse;
             consensus := consensus;
             correctInformation := correctInformation;
             agents := agents;
             lavaGatewayConsensus := lavaGatewayConsensus |}
  | _, _, _, _ =>
      throw (ErrorObject (TypeError_message rt undefined (Named "verdict")))
  end.
End VerificationService.

(** * The vocabulary of the properties *)

(** [returns c P]: from every log, [c] completes normally, with a value that
    satisfies [P]. *)
Definition returns {A} (c : Task A) (P : A -> Prop) : Prop :=
  forall log, exists a log', c log = (Normal a, log') /\ P a.

(** [ensures c P]: when [c] completes normally, its value satisfies [P]. *)
Definition ensures {A} (c : Task A) (P : A -> Prop) : Prop :=
  forall log a log', c log = (Normal a, log') -> P a.

(** What holds between two deliveries of [settle_all] over promises that
    fulfil with [vs]: the promises still pending are distinct and in range,
    and [values] holds the value of every promise that has settled and
    nothing at the index of one that has not. *)
Definition joining {A} (vs : list A) (pending : list nat)
    (values : list (option A)) : Prop :=
  NoDup pending
  /\ (forall i, i ∈ pending -> i < length vs)
  /\ length values = length vs
  /\ (forall i v, vs !! i = Some v ->
        values !! i = Some (if decide (i ∈ pending) then None else Some v)).

(** The four names, in the order of the array. *)
Definition providerOrder : list string :=
  ["Claude (Anthropic)"; "Fetch.ai"; "Gemini (Google)"; "Bright Data"].

(** The label of a verdict, as [verifyStatement] derives it. *)
Definition label (v : value) : ConsensusLabel :=
  if is_string "true" v then verified_true
  else if is_string "false" v then verified_false
  else inconclusive.

(** The same environment with another order of settlement. *)
Definition reschedule (env : Env) (choose : nat -> nat) : Env :=
  {| runtime := runtime env;
     apiConfig := apiConfig env;
     network := network env;
     randomUUID := randomUUID env;
     settles := choose |}.

(** The two agents of the heuristic. *)
Definition sourcesFound : VerificationAgent :=
  {| name := "Bright Data";
     verdict := Str "true";
     confidence := Num 0.75;
     reasoning := Str "Found supporting web sources" |}.

Definition noSources : VerificationAgent :=
  {| name := "Bright Data";
     verdict := Str "inconclusive";
     confidence := Num 0.3;
     reasoning := Str "No conclusive web sources found" |}.

(** The first agent that voted false and gave a reasoning. *)
Definition firstFalseReasoning (agents : list VerificationAgent)
    : option VerificationAgent :=
  List.find (fun a => is_string "false" (verdict a) && truthy (reasoning a)) agents.

(** The request of the synthesis call. *)
Definition synthesisRequest (env : Env) (falseStatement : string)
    (agents : list VerificationAgent) : Request :=
  claudeRequest env 512
    (correctionPrompt (runtime env) falseStatement (falseReasonings agents)).

(** The synthesis request fails: a network error, a status that is not a
    success, a body that is not JSON, or a body without a first content
    block to read the text of. *)
Definition synthesisFails (env : Env) (falseStatement : string)
    (agents : list VerificationAgent) (log : list Request) : Prop :=
  match network env log (synthesisRequest env falseStatement agents) with
  | Throw _ => True
  | Normal response =>
      if ok response then
        match json_body response with
        | Throw _ => True
        | Normal data => exists e, contentText env data = Throw e
        end
      else True
  end.

(** * Sample data

    Concrete agents, answers and environments for the examples and the
    witnesses below. *)

(** An agent with a given vote. *)
Definition vote (agentName verdict : string) : VerificationAgent :=
  {| name := agentName; verdict := Str verdict;
     confidence := Num 0.9; reasoning := Str "checked" |}.

(** Three agents vote false and one is inconclusive; two vote false and two
    true. *)
Definition threeFalse : list VerificationAgent :=
  [vote "Claude (Anthropic)" "false"; vote "Fetch.ai" "false";
   vote "Gemini (Google)" "false"; vote "Bright Data" "inconclusive"].

Definition twoAgainstTwo : list VerificationAgent :=
  [vote "Claude (Anthropic)" "false"; vote "Fetch.ai" "true";
   vote "Gemini (Google)" "false"; vote "Bright Data" "true"].

(** A runtime whose [JSON.parse] knows the texts of a table and rejects the
    rest. *)
Definition sampleRuntime (parses : list (string * json)) : Runtime :=
  {| Number_toString := fun _ => "0";
     StringToNumber := fun _ => nan;
     JSON_parse := fun text =>
       match assoc text parses with
       | Some j => Normal j
       | None => Throw (ErrorObject "Unexpected token in JSON")
       end;
     TypeError_message := fun _ k =>
       "Cannot read properties (reading '" +:+ key_name k +:+ "')" |}.

(** The defaults of [api-config.ts] with the five keys given. *)
Definition withKeys (anthropic fetchAI gemini brightData lavaGateway : string)
    : ApiConfig :=
  {| anthropic_apiKey := anthropic;
     anthropic_baseUrl := "https://api.anthropic.com";
     anthropic_model := "claude-3-5-sonnet-20241022";
     gemini_apiKey := gemini;
     gemini_baseUrl := "https://generativelanguage.googleapis.com";
     gemini_model := "gemini-2.0-flash-exp";
     fetchAI_apiKey := fetchAI;
     fetchAI_agentverseUrl := "https://agentverse.ai/api";
     fetchAI_asiOneUrl := "https://asi.one/api";
     brightData_apiKey := brightData;
     brightData_baseUrl := "https://api.brightdata.com";
     lavaGateway_apiKey := lavaGateway;
     lavaGateway_baseUrl := "https://gateway.lavanet.xyz" |}.

(** What a [fetch] rejects with when the network is down. *)
Definition offline : thrown := ErrorObject "Failed to fetch".

(** A network that answers the requests in the order they are issued; past
    the end of the list it is unreachable. *)
Definition answers (outcomes : list (completion Response)) : Network :=
  fun log _ => default (Throw offline) (outcomes !! length log).

Definition success (data : json) : completion Response :=
  Normal {| ok := true; statusText := "OK"; json_body := Normal data |}.

Definition failure (status : string) : completion Response :=
  Normal {| ok := false; statusText := status;
            json_body := Throw (ErrorObject "Unexpected end of JSON input") |}.

Definition sampleEnv (cfg : ApiConfig) (parses : list (string * json))
    (outcomes : list (completion Response)) : Env :=
  {| runtime := sampleRuntime parses;
     apiConfig := cfg;
     network := answers outcomes;
     randomUUID := "0b1f6c1e-5f0a-4a51-9d5e-2f3f1a7c9e10";
     settles := fun step => 2 * step + 1 |}.

Definition allKeys : ApiConfig :=
  withKeys "claude-key" "fetch-key" "gemini-key" "bright-key" "lava-key".

(** One search result. *)
Definition searchHit : json :=
  JObj [("title", JStr "Spherical Earth"); ("url", JStr "https://example.org/earth")].

(** A Fetch.ai answer that supplies a confidence of zero. *)
Definition zeroConfidence : json :=
  JObj [("verdict", JStr "false");
        ("confidence", JNum 0);
        ("reasoning", JStr "The Earth is an oblate spheroid")].

(** A Fetch.ai answer that omits the reasoning. *)
Definition terseAnswer : json :=
  JObj [("verdict", JStr "false"); ("confidence", JNum 0.9)].

(** What Claude and Gemini are made to say about the flat Earth. *)
Definition flatVerdictText : string :=
  "{" +:+ quoted "verdict" +:+ ": " +:+ quoted "false" +:+ ", "
  +:+ quoted "confidence" +:+ ": 0.95, "
  +:+ quoted "reasoning" +:+ ": " +:+ quoted "The Earth is an oblate spheroid" +:+ "}".

Definition flatVerdict : json :=
  JObj [("verdict", JStr "false");
        ("confidence", JNum 0.95);
        ("reasoning", JStr "The Earth is an oblate spheroid")].

(** All four providers answer, three of them false, and the synthesis call
    is answered by [synthesis]. *)
Definition flatEarth (synthesis : completion Response) : Env :=
  sampleEnv (withKeys "claude-key" "fetch-key" "gemini-key" "bright-key" "")
    [(flatVerdictText, flatVerdict)]
    [success (JObj [("content",
                     JArr [JObj [("type", JStr "text"); ("text", JStr flatVerdictText)]])]);
     success flatVerdict;
     success (JObj [("candidates",
                     JArr [JObj [("content",
                                  JObj [("parts",
                                         JArr [JObj [("text", JStr flatVerdictText)]])])]])]);
     success (JObj [("results", JArr [searchHit])]);
     synthesis].

(** A successful synthesis response whose first content block has no
    text. *)
Definition withoutText : completion Response :=
  success (JObj [("content",
                  JArr [JObj [("type", JStr "thinking");
                              ("thinking", JStr "The user states that ...")]])]).

(** * Requests, votes and callers: vocabulary *)

(** [silent c]: [c] issues no request. *)
Definition silent {A} (c : Task A) : Prop := forall log, snd (c log) = log.

(** The request a function issues when its key is configured. *)
Definition ifConfigured (apiKey : string) (request : Request) : list Request :=
  if missing apiKey then [] else [request].

(** The requests of the four adapters, in the order they are issued. *)
Definition adapterRequests (env : Env) (statement : string) : list Request :=
  ifConfigured (anthropic_apiKey (apiConfig env))
    (claudeRequest env 1024 (factCheckPrompt statement))
  ++ ifConfigured (fetchAI_apiKey (apiConfig env)) (fetchAIRequest env statement)
  ++ ifConfigured (gemini_apiKey (apiConfig env)) (geminiRequest env statement)
  ++ ifConfigured (brightData_apiKey (apiConfig env)) (brightDataRequest env statement).

(** A vote is well formed when it is one of the three verdicts. *)
Definition wellFormed (agent : VerificationAgent) : Prop :=
  verdict agent = Str "true" \/ verdict agent = Str "false"
  \/ verdict agent = Str "inconclusive".

(** What the Bright Data adapter can return: true with confidence 0.75, or
    inconclusive with confidence 0.3 or 0. *)
Definition searchVerdict (agent : VerificationAgent) : Prop :=
  (verdict agent = Str "true" /\ confidence agent = Num 0.75)
  \/ (verdict agent = Str "inconclusive"
      /\ (confidence agent = Num 0.3 \/ confidence agent = Num 0)).

(** One of the four adapters, as the properties see it. *)
Record Adapter : Type := {
  adapterName : string;
  adapterKey : string;
  adapterRequest : Request;
  (** how the adapter words a status that is not a success *)
  statusError : string;
  adapterRun : Task VerificationAgent;
}.

Definition adapters (env : Env) (statement : string) : list Adapter :=
  [ {| adapterName := "Claude (Anthropic)";
       adapterKey := anthropic_apiKey (apiConfig env);
       adapterRequest := claudeRequest env 1024 (factCheckPrompt statement);
       statusError := "Claude API error: ";
       adapterRun := verifyWithClaude env statement |};
    {| adapterName := "Fetch.ai";
       adapterKey := fetchAI_apiKey (apiConfig env);
       adapterRequest := fetchAIRequest env statement;
       statusError := "Fetch.ai API error: ";
       adapterRun := verifyWithFetchAI env statement |};
    {| adapterName := "Gemini (Google)";
       adapterKey := gemini_apiKey (apiConfig env);
       adapterRequest := geminiRequest env statement;
       statusError := "Gemini API error: ";
       adapterRun := verifyWithGemini env statement |};
    {| adapterName := "Bright Data";
       adapterKey := brightData_apiKey (apiConfig env);
       adapterRequest := brightDataRequest env statement;
       statusError := "Bright Data API error: ";
       adapterRun := verifyWithBrightData env statement |} ].

(** [data.candidates[0].content.parts[0].text], the text of a Gemini
    response. *)
Definition candidateText (env : Env) (data : json) : completion value :=
  match get (runtime env) (Some data) (Named "candidates") with
  | Throw e => Throw e
  | Normal candidates =>
      match get (runtime env) candidates (Index 0) with
      | Throw e => Throw e
      | Normal candidate =>
          match get (runtime env) candidate (Named "content") with
          | Throw e => Throw e
          | Normal content =>
              match get (runtime env) content (Named "parts") with
              | Throw e => Throw e
              | Normal parts =>
                  match get (runtime env) parts (Index 0) with
                  | Throw e => Throw e
                  | Normal part => get (runtime env) part (Named "text")
                  end
              end
          end
      end
  end.

(** What Claude and Gemini make of the text of an answer: the fields of the
    object it parses to, as they are; the error agent when the text is not
    JSON or parses to [null]. *)
Definition parsedAgent (env : Env) (agentName : string) (text : value)
    : VerificationAgent :=
  match JSON_parse (runtime env) (ToString (runtime env) text) with
  | Throw e => failed agentName e
  | Normal JNull =>
      failed agentName
        (ErrorObject (TypeError_message (runtime env) (Some JNull) (Named "verdict")))
  | Normal result =>
      {| name := agentName;
         verdict := member result (Named "verdict");
         confidence := member result (Named "confidence");
         reasoning := member result (Named "reasoning") |}
  end.

(** The correction the callers act on ([routes/index.tsx], processStatement;
    [VerificationResultsPanel.tsx]): both speak or show
    [result.correctInformation] under the condition
    [result.isFalse && result.correctInformation]. *)
Definition shownCorrection (result : VerificationResult) : option value :=
  if isFalse result && truthy (correctInformation result)
  then Some (correctInformation result)
  else None.

(** The Gemini answer of the flat Earth run, on its own. *)
Definition geminiOnly : Env :=
  sampleEnv (withKeys "" "" "gemini-key" "" "")
    [(flatVerdictText, flatVerdict)]
    [success (JObj [("candidates",
                     JArr [JObj [("content",
                                  JObj [("parts",
                                         JArr [JObj [("text", JStr flatVerdictText)]])])]])])].

(** A synthesis response with a text. *)
Definition roundEarth : completion Response :=
  success (JObj [("content",
                  JArr [JObj [("type", JStr "text"); ("text", JStr "The Earth is round.")]])]).

(** The verdicts a gateway request posts. *)
Definition postedVerdicts (request : Request) : list value :=
  match body request with
  | JObj fields =>
      match assoc "agents" fields with
      | Some (JArr posted) => List.map (fun a => member a (Named "verdict")) posted
      | _ => []
      end
  | _ => []
  end.

(** What a strict gateway makes of the votes it is sent: false as soon as
    one agent voted false. *)
Definition strictAnswer (request : Request) : json :=
  JObj [("verdict",
         JStr (if existsb (is_string "false") (postedVerdicts request)
               then "false" else "true"));
        ("score", JNum 1)].

(** Fetch.ai and the gateway are configured: Fetch.ai votes false, and the
    gateway reads the votes and is strict. *)
Definition strictGateway : Env :=
  {| runtime := sampleRuntime [];
     apiConfig := withKeys "" "fetch-key" "" "" "lava-key";
     network := fun _ request =>
       if String.eqb (url request) "https://gateway.lavanet.xyz/v1/consensus"
       then success (strictAnswer request)
       else success flatVerdict;
     randomUUID := "0b1f6c1e-5f0a-4a51-9d5e-2f3f1a7c9e10";
     settles := fun step => 2 * step + 1 |}.

(** * The whole configuration ([src/config/api-config.ts])

    [apiConfig] has twelve entries; the verification service reads five of
    them ([ApiConfig] above). These are the other seven. *)

Record OtherConfig : Type := {
  vapi_apiKey : string;
  vapi_baseUrl : string;
  (** [import.meta.env.VITE_VAPI_ASSISTANT_ID], which may be undefined *)
  vapi_assistantId : option string;
  fishAudio_apiKey : string;
  fishAudio_baseUrl : string;
  elevenLabs_apiKey : string;
  elevenLabs_baseUrl : string;
  (** [import.meta.env.VITE_ELEVENLABS_VOICE_ID], which may be undefined *)
  elevenLabs_voiceId : option string;
  groq_apiKey : string;
  groq_baseUrl : string;
  groq_model : string;
  chroma_apiKey : string;
  chroma_baseUrl : string;
  composio_apiKey : string;
  composio_baseUrl : string;
  janitor_apiKey : string;
  janitor_baseUrl : string;
}.

Record WholeConfig : Type := {
  verification : ApiConfig;
  others : OtherConfig;
}.

(** [keyof ApiConfig]. *)
Inductive Service : Type :=
  | vapi | anthropic | gemini | fetchAI | brightData | lavaGateway
  | fishAudio | elevenLabs | groq | chroma | composio | janitor.

(** [apiConfig[service]] as the object it is: its keys, each with a string
    or [undefined]. *)
Definition serviceEntry (cfg : WholeConfig) (service : Service)
    : list (string * option string) :=
  let v := verification cfg in
  let o := others cfg in
  match service with
  | vapi => [("apiKey", Some (vapi_apiKey o)); ("baseUrl", Some (vapi_baseUrl o));
             ("assistantId", vapi_assistantId o)]
  | anthropic => [("apiKey", Some (anthropic_apiKey v));
                  ("baseUrl", Some (anthropic_baseUrl v));
                  ("model", Some (anthropic_model v))]
  | gemini => [("apiKey", Some (gemini_apiKey v)); ("baseUrl", Some (gemini_baseUrl v));
               ("model", Some (gemini_model v))]
  | fetchAI => [("apiKey", Some (fetchAI_apiKey v));
                ("agentverseUrl", Some (fetchAI_agentverseUrl v));
                ("asiOneUrl", Some (fetchAI_asiOneUrl v))]
  | brightData => [("apiKey", Some (brightData_apiKey v));
                   ("baseUrl", Some (brightData_baseUrl v))]
  | lavaGateway => [("apiKey", Some (lavaGateway_apiKey v));
                    ("baseUrl", Some (lavaGateway_baseUrl v))]
  | fishAudio => [("apiKey", Some (fishAudio_apiKey o));
                  ("baseUrl", Some (fishAudio_baseUrl o))]
  | elevenLabs => [("apiKey", Some (elevenLabs_apiKey o));
                   ("baseUrl", Some (elevenLabs_baseUrl o));
                   ("voiceId", elevenLabs_voiceId o)]
  | groq => [("apiKey", Some (groq_apiKey o)); ("baseUrl", Some (groq_baseUrl o));
             ("model", Some (groq_model o))]
  | chroma => [("apiKey", Some (chroma_apiKey o)); ("baseUrl", Some (chroma_baseUrl o))]
  | composio => [("apiKey", Some (composio_apiKey o));
                 ("baseUrl", Some (composio_baseUrl o))]
  | janitor => [("apiKey", Some (janitor_apiKey o)); ("baseUrl", Some (janitor_baseUrl o))]
  end.

(** The value of a key of such an object: [None] when the key is not [in]
    it, [Some None] when it is there and undefined. *)
Fixpoint entryKey (k : string) (config : list (string * option string))
    : option (option string) :=
  match config with
  | [] => None
  | (k', v) :: rest => if String.eqb k k' then Some v else entryKey k rest
  end.

(** [isApiConfigured]. The object of a service is never falsy, so the first
    test of the source always passes. *)
Definition isApiConfigured (cfg : WholeConfig) (service : Service) : bool :=
  let config := serviceEntry cfg service in
  match entryKey "apiKey" config with
  | Some (Some apiKey) => Nat.ltb 0 (String.length apiKey)
  | _ =>
      match entryKey "baseUrl" config with
      | Some (Some baseUrl) => Nat.ltb 0 (String.length baseUrl)
      | _ => false
      end
  end.

(** The [required] list of [getMissingConfigs]. *)
Definition required : list Service :=
  [vapi; anthropic; gemini; fetchAI; brightData; lavaGateway; fishAudio].

(** [getMissingConfigs]. *)
Definition getMissingConfigs (cfg : WholeConfig) : list Service :=
  List.filter (fun service => negb (isApiConfigured cfg service)) required.

(** The API key of a service. *)
Definition apiKeyOf (cfg : WholeConfig) (service : Service) : string :=
  let v := verification cfg in
  let o := others cfg in
  match service with
  | vapi => vapi_apiKey o
  | anthropic => anthropic_apiKey v
  | gemini => gemini_apiKey v
  | fetchAI => fetchAI_apiKey v
  | brightData => brightData_apiKey v
  | lavaGateway => lavaGateway_apiKey v
  | fishAudio => fishAudio_apiKey o
  | elevenLabs => elevenLabs_apiKey o
  | groq => groq_apiKey o
  | chroma => chroma_apiKey o
  | composio => composio_apiKey o
  | janitor => janitor_apiKey o
  end.

(** The defaults of [api-config.ts] for the other seven services, with the
    keys of Vapi, FishAudio and ElevenLabs given. *)
Definition otherKeys (vapiKey fishAudioKey elevenLabsKey : string) : OtherConfig :=
  {| vapi_apiKey := vapiKey;
     vapi_baseUrl := "https://api.vapi.ai";
     vapi_assistantId := None;
     fishAudio_apiKey := fishAudioKey;
     fishAudio_baseUrl := "https://api.fish.audio";
     elevenLabs_apiKey := elevenLabsKey;
     elevenLabs_baseUrl := "https://api.elevenlabs.io";
     elevenLabs_voiceId := None;
     groq_apiKey := "";
     groq_baseUrl := "https://api.groq.com";
     groq_model := "whisper-large-v3";
     chroma_apiKey := "";
     chroma_baseUrl := "https://api.trychroma.com";
     composio_apiKey := "";
     composio_baseUrl := "https://api.composio.dev";
     janitor_apiKey := "";
     janitor_baseUrl := "https://api.janitorai.com" |}.

(** * Statement classification ([VoiceService.classifyStatementType])

    Transcribed texts are taken in ASCII, one [ascii] per UTF-16 code unit.
    There [String.prototype.trim] removes the code units 9 to 13 and 32 from
    both ends and [toLowerCase] maps A-Z to a-z; on other texts both do more
    (Unicode white space and case mappings), so the properties of the
    classifier are stated for [isAscii] texts. *)

Inductive StatementType : Type :=
  | declarative | opinion | question | other.

Definition isAsciiChar (c : ascii) : bool := Nat.ltb (nat_of_ascii c) 128.

Fixpoint isAscii (s : string) : bool :=
  match s with
  | EmptyString => true
  | String c rest => isAsciiChar c && isAscii rest
  end.

(** White space and line terminators below 128: TAB, LF, VT, FF, CR, SP. *)
Definition isWhiteSpace (c : ascii) : bool := Ascii.is_space c.

Fixpoint trimStart (s : string) : string :=
  match s with
  | EmptyString => EmptyString
  | String c rest => if isWhiteSpace c then trimStart rest else s
  end.

Fixpoint trimEnd (s : string) : string :=
  match s with
  | EmptyString => EmptyString
  | String c rest =>
      match trimEnd rest with
      | EmptyString => if isWhiteSpace c then EmptyString else String c EmptyString
      | kept => String c kept
      end
  end.

(** [s.trim()]. *)
Definition trim (s : string) : string := trimEnd (trimStart s).

Definition toLowerChar (c : ascii) : ascii :=
  let n := nat_of_ascii c in
  if Nat.leb 65 n && Nat.leb n 90 then ascii_of_nat (n + 32) else c.

(** [s.toLowerCase()]. *)
Fixpoint toLowerCase (s : string) : string :=
  match s with
  | EmptyString => EmptyString
  | String c rest => String (toLowerChar c) (toLowerCase rest)
  end.

(** [s.startsWith(p)]. *)
Definition startsWith (s p : string) : bool := String.prefix p s.

(** [s.includes(p)]: [p] starts at some position of [s]. *)
Fixpoint includes (s p : string) : bool :=
  startsWith s p
  || match s with
     | EmptyString => false
     | String _ rest => includes rest p
     end.

(** [s.endsWith(p)]: [p] is what is left of [s] from some position on. *)
Fixpoint endsWith (s p : string) : bool :=
  String.eqb s p
  || match s with
     | EmptyString => false
     | String _ rest => endsWith rest p
     end.

Definition isDigit (c : ascii) : bool :=
  let n := nat_of_ascii c in Nat.leb 48 n && Nat.leb n 57.

(** [/\d/.test(s)]. *)
Fixpoint hasDigit (s : string) : bool :=
  match s with
  | EmptyString => false
  | String c rest => isDigit c || hasDigit rest
  end.

(** [classifyStatementType]. *)
Definition classifyStatementType (text : string) : StatementType :=
  let normalized := toLowerCase (trim text) in
  if endsWith normalized "?"
     || startsWith normalized "how "
     || startsWith normalized "what "
     || startsWith normalized "when "
     || startsWith normalized "where "
     || startsWith normalized "who "
     || startsWith normalized "why "
     || startsWith normalized "is "
     || startsWith normalized "are "
     || startsWith normalized "can "
     || startsWith normalized "could "
     || startsWith normalized "would "
     || startsWith normalized "should "
  then question
  else if includes normalized "i think"
     || includes normalized "i believe"
     || includes normalized "in my opinion"
     || includes normalized "i feel"
     || includes normalized "i prefer"
     || startsWith normalized "i like"
     || startsWith normalized "i dislike"
     || includes normalized "should be"
     || includes normalized "ought to"
  then opinion
  else if startsWith normalized "the "
     || startsWith normalized "it is"
     || startsWith normalized "this is"
     || startsWith normalized "that is"
     || includes normalized " is "
     || includes normalized " are "
     || includes normalized " was "
     || includes normalized " were "
     || hasDigit normalized
  then declarative
  else other.

(** ** Vocabulary of the classifier's properties *)

(** A text of white space only. *)
Fixpoint isBlank (s : string) : bool :=
  match s with
  | EmptyString => true
  | String c rest => isWhiteSpace c && isBlank rest
  end.

(** The other case of a letter; any other character is left alone. *)
Definition swapCase (c : ascii) : ascii :=
  let n := nat_of_ascii c in
  if Nat.leb 65 n && Nat.leb n 90 then ascii_of_nat (n + 32)
  else if Nat.leb 97 n && Nat.leb n 122 then ascii_of_nat (n - 32)
  else c.

(** [recased s t]: [t] is [s] with the case of some of its letters changed. *)
Inductive recased : string -> string -> Prop :=
  | recased_empty : recased EmptyString EmptyString
  | recased_same c s t : recased s t -> recased (String c s) (String c t)
  | recased_swap c s t : recased s t -> recased (String c s) (String (swapCase c) t).

(** The phrases that mark an opinion wherever they stand in the text. *)
Definition opinionMarkers : list string :=
  ["i think"; "i believe"; "in my opinion"; "i feel"; "i prefer"; "should be";
   "ought to"].

(** The words that make a question of a text they start. *)
Definition questionWords : list string :=
  ["how"; "what"; "when"; "where"; "who"; "why"; "is"; "are"; "can"; "could";
   "would"; "should"].

(** * Speaking a text ([VoiceService.speak])

    [speak] is how the route voices a correction. Besides the network it
    drives the browser: an [Audio] element for the provider's recording, or
    the browser's own speech synthesis. *)

(** The [provider] argument of [speak]. *)
Inductive Provider : Type :=
  | fishaudio | elevenlabs.

(** The bytes of a recording. *)
Definition Blob : Type := string.

(** What the browser is asked to sound: an [Audio] element played for a
    blob, or an utterance handed to [window.speechSynthesis]. *)
Inductive Sound : Type :=
  | Audio (blob : Blob)
  | Utterance (text : string).

(** The browser around the service. Every promise settles; one that hangs
    forever is outside the model. *)
Record Browser : Type := {
  (** [response.blob()], which rejects when the body cannot be read *)
  blobOf : Response -> completion Blob;
  (** how playing a blob ends: [onended], or [onerror] or a rejected
      [play()] *)
  playback : Blob -> completion unit;
  (** what [new SpeechSynthesisUtterance] or [window.speechSynthesis] throws
      where the browser has no speech synthesis *)
  speechError : option thrown;
}.

Record VoiceEnv : Type := {
  voiceConfig : OtherConfig;
  voiceNetwork : Network;
  browser : Browser;
}.

(** What [speak] acts on: the requests issued and the sounds started. *)
Record Stage : Type := {
  requests : list Request;
  sounds : list Sound;
}.

(** An asynchronous computation on a stage. *)
Definition Voice (A : Type) : Type := Stage -> completion A * Stage.

Definition andThen {A B} (c : Voice A) (k : A -> Voice B) : Voice B :=
  fun stage =>
    match c stage with
    | (Normal a, stage') => k a stage'
    | (Throw e, stage') => (Throw e, stage')
    end.

(** [try { c } catch (error) { handler }]. *)
Definition orCatch {A} (c : Voice A) (handler : thrown -> Voice A) : Voice A :=
  fun stage =>
    match c stage with
    | (Normal a, stage') => (Normal a, stage')
    | (Throw e, stage') => handler e stage'
    end.

(** A task of the network, run on the stage's request log. *)
Definition onNetwork {A} (c : Task A) : Voice A :=
  fun stage =>
    let (outcome, log) := c (requests stage) in
    (outcome, {| requests := log; sounds := sounds stage |}).

(** A step of the browser that starts a sound and ends as [outcome]. *)
Definition sound (s : Sound) (outcome : completion unit) : Voice unit :=
  fun stage =>
    (outcome, {| requests := requests stage; sounds := sounds stage ++ [s] |}).

Section VoiceService.
Variable env : VoiceEnv.

#[local] Abbreviation voice := (voiceConfig env).

Definition fishAudioRequest (text : string) : Request :=
  {| url := fishAudio_baseUrl voice +:+ "/v1/tts";
     method := "POST";
     headers := [("Authorization", "Bearer " +:+ fishAudio_apiKey voice);
                 ("Content-Type", "application/json")];
     body := JObj [("text", JStr text); ("voice", JStr "default");
                   ("format", JStr "mp3")] |}.

(** [apiConfig.elevenLabs.voiceId || "21m00Tcm4TlvDq8ikWAM"]. *)
Definition voiceId : string :=
  match elevenLabs_voiceId voice with
  | Some id => if missing id then "21m00Tcm4TlvDq8ikWAM" else id
  | None => "21m00Tcm4TlvDq8ikWAM"
  end.

Definition elevenLabsRequest (text : string) : Request :=
  {| url := elevenLabs_baseUrl voice +:+ "/v1/text-to-speech/" +:+ voiceId;
     method := "POST";
     headers := [("xi-api-key", elevenLabs_apiKey voice);
                 ("Content-Type", "application/json")];
     body := JObj [("text", JStr text);
                   ("model_id", JStr "eleven_monolingual_v1");
                   ("voice_settings",
                    JObj [("stability", JNum 0.5);
                          ("similarity_boost", JNum 0.75)])] |}.

(** [playAudioBlob]: the promise resolves when the audio ends and rejects
    when it fails. *)
Definition playAudioBlob (blob : Blob) : Voice unit :=
  sound (Audio blob) (playback (browser env) blob).

(** [speakWithBrowser]: the promise resolves when the utterance ends and
    when it fails; it rejects only when the executor throws. *)
Definition speakWithBrowser (text : string) : Voice unit :=
  match speechError (browser env) with
  | Some error => fun stage => (Throw error, stage)
  | None => sound (Utterance text) (Normal tt)
  end.

Definition speakWithFishAudio (text : string) : Voice unit :=
  andThen (onNetwork (fetch (voiceNetwork env) (fishAudioRequest text)))
    (fun response =>
       if negb (ok response)
       then onNetwork (throw (ErrorObject ("FishAudio API error: " +:+ statusText response)))
       else andThen (onNetwork (lift (blobOf (browser env) response))) playAudioBlob).

Definition speakWithElevenLabs (text : string) : Voice unit :=
  andThen (onNetwork (fetch (voiceNetwork env) (elevenLabsRequest text)))
    (fun response =>
       if negb (ok response)
       then onNetwork (throw (ErrorObject ("ElevenLabs API error: " +:+ statusText response)))
       else andThen (onNetwork (lift (blobOf (browser env) response))) playAudioBlob).

Definition isProvider (a b : Provider) : bool :=
  match a, b with
  | fishaudio, fishaudio | elevenlabs, elevenlabs => true
  | _, _ => false
  end.

(** [speak]; [None] is a call without the [provider] argument. *)
Definition speak (text : string) (provider : option Provider) : Voice unit :=
  let provider := default fishaudio provider in
  orCatch
    (if isProvider provider fishaudio && negb (missing (fishAudio_apiKey voice))
     then speakWithFishAudio text
     else if isProvider provider elevenlabs && negb (missing (elevenLabs_apiKey voice))
     then speakWithElevenLabs text
     else speakWithBrowser text)
    (fun error => speakWithBrowser text).

End VoiceService.

(** ** Vocabulary of the properties of [speak] *)

(** The request [speak] has for a provider, and the provider's key. *)
Definition speechRequest (env : VoiceEnv) (provider : Provider) (text : string)
    : Request :=
  match provider with
  | fishaudio => fishAudioRequest env text
  | elevenlabs => elevenLabsRequest env text
  end.

Definition speechKey (env : VoiceEnv) (provider : Provider) : string :=
  match provider with
  | fishaudio => fishAudio_apiKey (voiceConfig env)
  | elevenlabs => elevenLabs_apiKey (voiceConfig env)
  end.

(** The recording a provider answered [request] with, when it did: an ok
    response whose blob could be read. *)
Definition recording (env : VoiceEnv) (log : list Request) (request : Request)
    : option Blob :=
  match voiceNetwork env log request with
  | Normal response =>
      if ok response
      then match blobOf (browser env) response with
           | Normal blob => Some blob
           | Throw _ => None
           end
      else None
  | Throw _ => None
  end.

(** A browser that plays every recording to its end, with speech
    synthesis. *)
Definition soundBrowser : Browser :=
  {| blobOf := fun response => Normal (statusText response);
     playback := fun _ => Normal tt;
     speechError := None |}.

(** A setting with a FishAudio key whose provider answers as [outcome]. *)
Definition studio (outcome : completion Response) : VoiceEnv :=
  {| voiceConfig := otherKeys "" "fish-key" "";
     voiceNetwork := fun _ _ => outcome;
     browser := soundBrowser |}.

Definition emptyStage : Stage := {| requests := []; sounds := [] |}.

(** * Properties *)

(** ** The local vote count *)

Lemma falseCount_le agents : falseCount agents <= length agents.
Proof. apply List.filter_length_le. Qed.

Lemma trueCount_le agents : trueCount agents <= length agents.
Proof. apply List.filter_length_le. Qed.

Lemma inconclusiveCount_le agents : inconclusiveCount agents <= length agents.
Proof. apply List.filter_length_le. Qed.

(** Splits a count bounded by four into its five values. *)
Ltac upto4 n := do 5 (try destruct n as [|n]); [ .. | exfalso; lia ].

(** Over four votes the division is exact: the quotients are the five
    quarters, each a binary64 number. *)
Lemma fraction_of_four count :
  count <= 4 ->
  fraction count 4 = nth count [0; 0.25; 0.5; 0.75; 1]%float nan.
Proof. intros H. upto4 count; reflexivity. Qed.

(** The comparison with the float nearest to 0.6 decides what the exact
    comparison with 6/10 does. *)
Lemma threshold_of_four count :
  count <= 4 ->
  PrimFloat.leb consensusThreshold (fraction count 4)
  = Qle_bool (6 # 10) (Z.of_nat count # 4).
Proof. intros H. upto4 count; reflexivity. Qed.

(** The two threshold scenarios of the specification. *)
Example threshold_boundary :
  calculateLocalConsensus threeFalse
  = {| consensus_verdict := Str "false"; consensusScore := Num 0.75 |}.
Proof. reflexivity. Qed.

Example threshold_non_trigger :
  calculateLocalConsensus twoAgainstTwo
  = {| consensus_verdict := Str "inconclusive"; consensusScore := Num 0.5 |}.
Proof. reflexivity. Qed.

(** C2. For every array of four agents, the local consensus is: false with
    score falseCount/4 when falseCount/4 >= 0.6; otherwise true with score
    trueCount/4 when trueCount/4 >= 0.6; otherwise inconclusive, with the
    score of the largest of the three buckets. The conditions are stated in
    exact arithmetic, the scores are the code's float quotients (exact
    quarters, [fraction_of_four]). *)
Theorem calculateLocalConsensus_of_four (agents : list VerificationAgent) :
  length agents = 4 ->
  calculateLocalConsensus agents =
    if Qle_bool (6 # 10) (Z.of_nat (falseCount agents) # 4) then
      {| consensus_verdict := Str "false";
         consensusScore := Num (fraction (falseCount agents) 4) |}
    else if Qle_bool (6 # 10) (Z.of_nat (trueCount agents) # 4) then
      {| consensus_verdict := Str "true";
         consensusScore := Num (fraction (trueCount agents) 4) |}
    else
      {| consensus_verdict := Str "inconclusive";
         consensusScore :=
           Num (fraction (Nat.max (falseCount agents)
                            (Nat.max (trueCount agents) (inconclusiveCount agents))) 4) |}.
Proof.
  intros H. unfold calculateLocalConsensus. rewrite H.
  rewrite !threshold_of_four; [reflexivity | |].
  - rewrite <- H. apply trueCount_le.
  - rewrite <- H. apply falseCount_le.
Qed.

Lemma calculateLocalConsensus_of_four_witness :
  calculateLocalConsensus threeFalse
  = {| consensus_verdict := Str "false"; consensusScore := Num 0.75 |}.
Proof. exact (calculateLocalConsensus_of_four threeFalse eq_refl). Defined.

(** C10. For every array of four agents, a decisive local verdict carries
    the fraction of the agreeing votes as its score, and that score is at
    least the threshold 0.6, hence at least 0.75; the score is always a number
    between 0 and 1. *)
Theorem calculateLocalConsensus_score_bounds (agents : list VerificationAgent) :
  length agents = 4 ->
  let result := calculateLocalConsensus agents in
  (consensus_verdict result = Str "false" ->
     consensusScore result = Num (fraction (falseCount agents) 4)
     /\ PrimFloat.leb consensusThreshold (fraction (falseCount agents) 4) = true
     /\ PrimFloat.leb 0.75 (fraction (falseCount agents) 4) = true)
  /\ (consensus_verdict result = Str "true" ->
     consensusScore result = Num (fraction (trueCount agents) 4)
     /\ PrimFloat.leb consensusThreshold (fraction (trueCount agents) 4) = true
     /\ PrimFloat.leb 0.75 (fraction (trueCount agents) 4) = true)
  /\ exists score, consensusScore result = Num score
       /\ PrimFloat.leb 0 score = true /\ PrimFloat.leb score 1 = true.
Proof.
  intros H result. subst result. unfold calculateLocalConsensus. rewrite H.
  pose proof (falseCount_le agents) as Hf.
  pose proof (trueCount_le agents) as Ht.
  pose proof (inconclusiveCount_le agents) as Hi.
  rewrite H in Hf, Ht, Hi.
  generalize dependent (inconclusiveCount agents).
  generalize dependent (trueCount agents).
  generalize dependent (falseCount agents).
  intros f Hf t Ht i Hi.
  upto4 f; upto4 t; upto4 i; vm_compute;
    (split; [| split]);
    first [ intros; discriminate
          | intros; repeat split; reflexivity
          | eexists; repeat split; reflexivity ].
Qed.

Lemma calculateLocalConsensus_score_bounds_witness :
  consensus_verdict (calculateLocalConsensus threeFalse) = Str "false"
  /\ consensusScore (calculateLocalConsensus threeFalse) = Num 0.75
  /\ PrimFloat.leb 0.75 0.75 = true.
Proof.
  destruct (calculateLocalConsensus_score_bounds threeFalse eq_refl) as [Hfalse _].
  destruct (Hfalse eq_refl) as (Hscore & _ & Hbound).
  split; [reflexivity | split; [exact Hscore | exact Hbound]].
Defined.

(** ** Lengths as floats

    [Number_of_nat] goes through the 63-bit integers; below [2 ^ 32], the
    bound of the language on the length of an array, the float of a positive
    length is positive. *)

Lemma digits2_pos_iter_xO (p k : positive) :
  digits2_pos (Pos.iter xO p k) = (digits2_pos p + k)%positive.
Proof.
  induction k as [|k IH] using Pos.peano_ind.
  - simpl. lia.
  - rewrite Pos.iter_succ. simpl. rewrite IH. lia.
Qed.

Lemma digits2_pos_bound (p : positive) (n : nat) :
  (Zpos p < 2 ^ Z.of_nat n)%Z -> (Zpos (digits2_pos p) <= Z.of_nat n)%Z.
Proof.
  revert p. induction n as [|n IH]; intros p H.
  - simpl in H. lia.
  - rewrite Nat2Z.inj_succ, Z.pow_succ_r in H by lia.
    destruct p as [p|p|]; simpl; [| | lia]; specialize (IH p); lia.
Qed.

(** The shift of a mantissa that already has 53 digits is by zero places. *)
Ltac no_shift :=
  match goal with
  | |- context [shr ?r ?e ?n] => replace n with 0%Z by lia; cbn [shr]
  end.

Lemma binary_round_positive (p : positive) :
  (Zpos p < 2 ^ 32)%Z ->
  SFltb (S754_zero false) (binary_round prec emax false p 0) = true.
Proof.
  intros H. apply (digits2_pos_bound p 32) in H.
  unfold binary_round.
  remember (digits2_pos p) as d eqn:Hd.
  assert (Hd32 : (1 <= Zpos d <= 32)%Z) by lia.
  clear H.
  unfold fexp, emin, prec, emax, shl_align.
  destruct (Z.max (Z.pos d + 0 - 53) (3 - 1024 - 53) - 0)%Z eqn:He; try lia.
  unfold binary_round_aux, shr_fexp, Zdigits2, fexp, emin.
  change IntDef.Z.sub with Z.sub. change IntDef.Z.add with Z.add.
  change IntDef.Z.max with Z.max. change IntDef.Z.leb with Z.leb.
  rewrite digits2_pos_iter_xO, <- Hd.
  no_shift.
  cbn [round_nearest_even loc_of_shr_record shr_m shr_record_of_loc].
  rewrite digits2_pos_iter_xO, <- Hd.
  no_shift. cbn [shr_m shr_record_of_loc].
  destruct (Z.max (Z.pos d + 0 - 53) (3 - 1024 - 53) <=? 1024 - 53)%Z eqn:Hle;
    [reflexivity | lia].
Qed.

Lemma Number_of_nat_positive (n : nat) :
  (0 < Z.of_nat n < 2 ^ 32)%Z -> PrimFloat.ltb 0 (Number_of_nat n) = true.
Proof.
  intros H. unfold Number_of_nat.
  rewrite FloatAxioms.ltb_spec, FloatAxioms.of_uint63_spec, Uint63.of_Z_spec.
  rewrite Z.mod_small.
  2:{ split; [lia |]. eapply Z.lt_trans; [apply H | reflexivity]. }
  destruct (Z.of_nat n) as [|p|p] eqn:Hp; try lia.
  apply binary_round_positive. lia.
Qed.

(** ** Reasoning about tasks *)

Lemma returns_ret {A} (a : A) (P : A -> Prop) : P a -> returns (ret a) P.
Proof. intros H log. exists a, log. split; [reflexivity | exact H]. Qed.

Lemma returns_bind {A B} (c : Task A) (k : A -> Task B) (Q : A -> Prop) (P : B -> Prop) :
  returns c Q -> (forall a, Q a -> returns (k a) P) -> returns (bind c k) P.
Proof.
  intros Hc Hk log. destruct (Hc log) as (a & log1 & Ha & HQ).
  destruct (Hk a HQ log1) as (b & log2 & Hb & HP).
  exists b, log2. unfold bind. rewrite Ha. split; assumption.
Qed.

Lemma ensures_ret {A} (a : A) (P : A -> Prop) : P a -> ensures (ret a) P.
Proof. intros H log a' log' Heq. inversion Heq; subst. exact H. Qed.

Lemma ensures_throw {A} (e : thrown) (P : A -> Prop) : ensures (throw e) P.
Proof. intros log a log' Heq. discriminate Heq. Qed.

Lemma ensures_bind {A B} (c : Task A) (k : A -> Task B) (P : B -> Prop) :
  (forall a, ensures (k a) P) -> ensures (bind c k) P.
Proof.
  intros Hk log b log' Heq. unfold bind in Heq.
  destruct (c log) as [[a|e] log1]; [| discriminate Heq].
  exact (Hk a log1 b log' Heq).
Qed.

(** A [try] whose handler returns always returns; what holds of the body's
    value and of the handler's holds of the whole. *)
Lemma returns_try_catch {A} (c : Task A) (handler : thrown -> Task A) (P : A -> Prop) :
  ensures c P -> (forall e, returns (handler e) P) -> returns (try_catch c handler) P.
Proof.
  intros Hc Hh log. unfold try_catch.
  destruct (c log) as [[a|e] log1] eqn:Heq.
  - exists a, log1. split; [reflexivity | exact (Hc log a log1 Heq)].
  - apply Hh.
Qed.

(** Walks through the body of a [try]: binds, branches and returns. *)
Ltac ensures_body :=
  repeat lazymatch goal with
    | |- ensures (ret _) _ => apply ensures_ret
    | |- ensures (throw _) _ => apply ensures_throw
    | |- ensures (bind _ _) _ => apply ensures_bind; intro
    | |- ensures (if ?b then _ else _) _ => destruct b
    end.

(** ** The join of the four adapters *)

Section PromiseAll.
Context {A : Type}.
Variable choose : nat -> nat.
Variable vs : list A.

Lemma joining_start :
  joining vs (seq 0 (length vs)) (replicate (length vs) None).
Proof.
  repeat split.
  - apply NoDup_seq.
  - intros i Hi. apply elem_of_seq in Hi. lia.
  - apply length_replicate.
  - intros i v Hv. apply lookup_lt_Some in Hv.
    rewrite lookup_replicate_2 by exact Hv.
    rewrite decide_True; [reflexivity |]. apply elem_of_seq. lia.
Qed.

Lemma joining_end values : joining vs [] values -> values = Some <$> vs.
Proof.
  intros (_ & _ & Hlen & Hval). apply list_eq. intros i.
  rewrite list_lookup_fmap. destruct (vs !! i) as [v|] eqn:Hv.
  - rewrite (Hval i v Hv). rewrite decide_False; [reflexivity |].
    apply not_elem_of_nil.
  - apply lookup_ge_None in Hv. apply lookup_ge_None. lia.
Qed.

Lemma joining_step l1 l2 i v values :
  joining vs (l1 ++ i :: l2) values -> vs !! i = Some v ->
  joining vs (l1 ++ l2) (<[i := Some v]> values).
Proof.
  intros (Hnd & Hin & Hlen & Hval) Hv.
  apply NoDup_app in Hnd as (Hnd1 & Hdisj & Hnd2).
  apply NoDup_cons in Hnd2 as (Hi2 & Hnd2).
  assert (Hi1 : i ∉ l1).
  { intros Hi. apply (Hdisj i Hi). apply elem_of_cons. by left. }
  repeat split.
  - apply NoDup_app. repeat split; [assumption | | assumption].
    intros x Hx Hx2. apply (Hdisj x Hx). apply elem_of_cons. by right.
  - intros j Hj. apply Hin. rewrite elem_of_app, elem_of_cons.
    apply elem_of_app in Hj. tauto.
  - rewrite length_insert. exact Hlen.
  - intros j w Hw. destruct (decide (i = j)) as [->|Hne].
    + rewrite list_lookup_insert_eq.
      2:{ rewrite Hlen. by eapply lookup_lt_Some. }
      rewrite decide_False; [congruence |].
      rewrite elem_of_app. tauto.
    + rewrite list_lookup_insert_ne by exact Hne.
      rewrite (Hval j w Hw).
      destruct (decide (j ∈ l1 ++ i :: l2)) as [Hj|Hj];
        destruct (decide (j ∈ l1 ++ l2)) as [Hj'|Hj']; try reflexivity; exfalso.
      * apply Hj'. rewrite elem_of_app, elem_of_cons in Hj.
        rewrite elem_of_app. destruct Hj as [?|[?|?]]; [tauto | congruence | tauto].
      * apply Hj. rewrite elem_of_app, elem_of_cons.
        rewrite elem_of_app in Hj'. tauto.
Qed.

(** Whatever the order of delivery, the join of fulfilled promises is the
    list of their values in the order of the promises. *)
Lemma settle_all_fulfilled fuel : forall pending values step,
  length pending = fuel -> joining vs pending values ->
  settle_all choose (Normal <$> vs) pending values step fuel = Normal (Some <$> vs).
Proof.
  induction fuel as [|fuel IH]; intros pending values step Hfuel Hinv.
  - destruct pending; [| discriminate Hfuel].
    simpl. f_equal. by apply joining_end.
  - destruct pending as [|p pending']; [discriminate Hfuel |].
    cbn [settle_all].
    set (pending := p :: pending') in *.
    assert (Hk : choose step mod length pending < length pending).
    { apply Nat.mod_upper_bound. rewrite Hfuel. lia. }
    apply lookup_lt_is_Some_2 in Hk as [i Hi]. rewrite Hi.
    destruct (list_elem_of_split_length _ _ _ Hi) as (l1 & l2 & Hsplit & Hlen).
    assert (Hv : is_Some (vs !! i)).
    { apply lookup_lt_is_Some_2. destruct Hinv as (_ & Hin & _).
      apply Hin. by eapply list_elem_of_lookup_2. }
    destruct Hv as [v Hv].
    rewrite list_lookup_fmap, Hv. cbn [fmap option_fmap option_map].
    rewrite Hlen, Hsplit, delete_middle.
    apply IH.
    + rewrite Hsplit in Hfuel. rewrite length_app in *. simpl in Hfuel. lia.
    + apply joining_step; [by rewrite <- Hsplit | exact Hv].
Qed.
End PromiseAll.

(** The outcomes of tasks that all complete normally. *)
Lemma Promise_all_fulfilled {A} (choose : nat -> nat) (tasks : list (Task A))
    (vs : list A) (log log' : list Request) :
  start_all tasks log = (Normal <$> vs, log') ->
  Promise_all choose tasks log = (Normal (Some <$> vs), log').
Proof.
  intros Hstart. unfold Promise_all. rewrite Hstart.
  rewrite length_fmap. f_equal.
  apply settle_all_fulfilled; [apply length_seq | apply joining_start].
Qed.

(** ** The adapters never throw *)

Lemma ensures_trivial {A} (c : Task A) : ensures c (fun _ => True).
Proof. intros log a log' _. exact I. Qed.

(** Closes [returns] for a function of the shape every adapter has: an
    early return without a key, then a [try] whose handler returns. *)
Ltac adapter_returns :=
  lazymatch goal with
  | |- returns (if ?b then _ else _) _ =>
      destruct b;
      [ apply returns_ret; reflexivity
      | apply returns_try_catch;
        [ ensures_body; reflexivity
        | intro; apply returns_ret; reflexivity ] ]
  end.

Lemma verifyWithClaude_returns env statement :
  returns (verifyWithClaude env statement) (fun a => name a = "Claude (Anthropic)").
Proof. unfold verifyWithClaude. adapter_returns. Qed.

Lemma verifyWithFetchAI_returns env statement :
  returns (verifyWithFetchAI env statement) (fun a => name a = "Fetch.ai").
Proof. unfold verifyWithFetchAI. adapter_returns. Qed.

Lemma verifyWithGemini_returns env statement :
  returns (verifyWithGemini env statement) (fun a => name a = "Gemini (Google)").
Proof. unfold verifyWithGemini. adapter_returns. Qed.

Lemma verifyWithBrightData_returns env statement :
  returns (verifyWithBrightData env statement) (fun a => name a = "Bright Data").
Proof. unfold verifyWithBrightData. adapter_returns. Qed.

Lemma getLavaGatewayConsensus_returns env agents :
  returns (getLavaGatewayConsensus env agents) (fun _ => True).
Proof.
  unfold getLavaGatewayConsensus. destruct (missing _).
  - apply returns_ret. exact I.
  - apply returns_try_catch; [apply ensures_trivial |].
    intro. apply returns_ret. exact I.
Qed.

Lemma synthesize_returns env falseStatement reasonings :
  returns (synthesize env falseStatement reasonings) (fun _ => True).
Proof.
  unfold synthesize. destruct (missing _).
  - apply returns_ret. exact I.
  - apply returns_try_catch; [apply ensures_trivial |].
    intro. apply returns_ret. exact I.
Qed.

Lemma generateCorrectInformation_returns env falseStatement agents :
  returns (generateCorrectInformation env falseStatement agents) (fun _ => True).
Proof.
  unfold generateCorrectInformation. destruct (Nat.eqb _ _).
  - apply returns_ret. exact I.
  - eapply returns_bind; [apply synthesize_returns |].
    intros [text|] _; apply returns_ret; exact I.
Qed.

(** ** One run of [verifyStatement] *)

(** Every run goes the same way: each adapter returns its agent, the join
    hands the four over in the order of the calls whatever the order they
    settled in, the consensus step returns, the correction step runs only for
    a false verdict and returns, and the result is assembled from these. *)
Lemma verifyStatement_run env statement log :
  exists claude fetchAI gemini brightData log1 log2 log3 log4 outcome log5 info log6,
    verifyWithClaude env statement log = (Normal claude, log1)
    /\ verifyWithFetchAI env statement log1 = (Normal fetchAI, log2)
    /\ verifyWithGemini env statement log2 = (Normal gemini, log3)
    /\ verifyWithBrightData env statement log3 = (Normal brightData, log4)
    /\ name <$> [claude; fetchAI; gemini; brightData] = providerOrder
    /\ getLavaGatewayConsensus env [claude; fetchAI; gemini; brightData] log4
       = (Normal outcome, log5)
    /\ (if is_string "false" (consensus_verdict outcome)
        then generateCorrectInformation env statement
               [claude; fetchAI; gemini; brightData] log5
        else (Normal undefined, log5)) = (Normal info, log6)
    /\ verifyStatement env statement log
       = (Normal {| statementId := randomUUID env;
                    isFalse := is_string "false" (consensus_verdict outcome);
                    consensus := label (consensus_verdict outcome);
                    correctInformation := info;
                    agents := [claude; fetchAI; gemini; brightData];
                    lavaGatewayConsensus := outcome |}, log6).
Proof.
  destruct (verifyWithClaude_returns env statement log) as (c & log1 & Hc & Nc).
  destruct (verifyWithFetchAI_returns env statement log1) as (f & log2 & Hf & Nf).
  destruct (verifyWithGemini_returns env statement log2) as (g & log3 & Hg & Ng).
  destruct (verifyWithBrightData_returns env statement log3) as (b & log4 & Hb & Nb).
  destruct (getLavaGatewayConsensus_returns env [c; f; g; b] log4)
    as (outcome & log5 & Ho & _).
  assert (Hinfo : exists info log6,
    (if is_string "false" (consensus_verdict outcome)
     then generateCorrectInformation env statement [c; f; g; b] log5
     else (Normal undefined, log5)) = (Normal info, log6)).
  { destruct (is_string "false" (consensus_verdict outcome)).
    - destruct (generateCorrectInformation_returns env statement [c; f; g; b] log5)
        as (info & log6 & Hi & _).
      by exists info, log6.
    - by exists undefined, log5. }
  destruct Hinfo as (info & log6 & Hi).
  exists c, f, g, b, log1, log2, log3, log4, outcome, log5, info, log6.
  do 4 (split; [assumption |]).
  split; [cbn; by rewrite Nc, Nf, Ng, Nb |].
  do 2 (split; [assumption |]).
  unfold verifyStatement, bind at 1.
  rewrite (Promise_all_fulfilled _ _ [c; f; g; b] log log4).
  2:{ cbn [start_all]. by rewrite Hc, Hf, Hg, Hb. }
  cbn [fmap list_fmap lookup list_lookup].
  unfold bind at 1. rewrite Ho.
  unfold bind at 1, label.
  destruct (is_string "false" (consensus_verdict outcome)).
  - rewrite Hi. reflexivity.
  - unfold ret at 1. injection Hi as <- <-. reflexivity.
Qed.

(** ** Totality and order *)


(** Two runs with every key configured. With the network down, each adapter
    catches the rejection of its [fetch] and the gateway call falls back; with
    every provider answering [null], each adapter catches the TypeError of
    its first property read. *)
Example verifyStatement_offline :
  exists result log',
    verifyStatement (sampleEnv allKeys [] []) "The Earth is flat" []
    = (Normal result, log')
    /\ agents result
       = (fun agentName => failed agentName offline) <$> providerOrder
    /\ lavaGatewayConsensus result
       = {| consensus_verdict := Str "inconclusive"; consensusScore := Num 1 |}
    /\ correctInformation result = undefined
    /\ length log' = 5.
Proof. eexists _, _. split; [vm_compute; reflexivity |]. repeat split. Qed.

Example verifyStatement_null_bodies :
  exists result log',
    verifyStatement (sampleEnv allKeys [] (replicate 5 (success JNull)))
      "The Earth is flat" []
    = (Normal result, log')
    /\ (reasoning <$> agents result)
       = [Str "Error: Cannot read properties (reading 'content')";
          Str "Error: Cannot read properties (reading 'verdict')";
          Str "Error: Cannot read properties (reading 'candidates')";
          Str "Error: Cannot read properties (reading 'results')"]
    /\ consensus result = inconclusive.
Proof. eexists _, _. split; [vm_compute; reflexivity |]. repeat split. Qed.

(** C6. The agents of every result are four, in the order Claude, Fetch.ai,
    Gemini, Bright Data, and the whole run is the same under every order in
    which the four adapter promises settle. *)
Theorem verifyStatement_agents_in_order (env : Env) (statement : string)
    (log : list Request) :
  exists result log',
    verifyStatement env statement log = (Normal result, log')
    /\ length (agents result) = 4
    /\ name <$> agents result = providerOrder
    /\ forall choose,
         verifyStatement (reschedule env choose) statement log = (Normal result, log').
Proof.
  destruct (verifyStatement_run env statement log)
    as (c & f & g & b & l1 & l2 & l3 & l4 & outcome & l5 & info & l6 & H).
  destruct H as (Hc & Hf & Hg & Hb & Hnames & Ho & Hi & Hrun).
  eexists _, _. split; [exact Hrun |].
  split; [reflexivity |]. split; [exact Hnames |].
  intros choose.
  destruct (verifyStatement_run (reschedule env choose) statement log)
    as (c' & f' & g' & b' & l1' & l2' & l3' & l4' & outcome' & l5' & info' & l6' & H').
  destruct H' as (Hc' & Hf' & Hg' & Hb' & _ & Ho' & Hi' & Hrun').
  change (verifyWithClaude env statement log = (Normal c', l1')) in Hc'.
  rewrite Hc in Hc'. injection Hc' as <- <-.
  change (verifyWithFetchAI env statement l1 = (Normal f', l2')) in Hf'.
  rewrite Hf in Hf'. injection Hf' as <- <-.
  change (verifyWithGemini env statement l2 = (Normal g', l3')) in Hg'.
  rewrite Hg in Hg'. injection Hg' as <- <-.
  change (verifyWithBrightData env statement l3 = (Normal b', l4')) in Hb'.
  rewrite Hb in Hb'. injection Hb' as <- <-.
  change (getLavaGatewayConsensus env [c; f; g; b] l4 = (Normal outcome', l5')) in Ho'.
  rewrite Ho in Ho'. injection Ho' as <- <-.
  change (generateCorrectInformation (reschedule env choose))
    with (generateCorrectInformation env) in Hi'.
  rewrite Hi in Hi'. injection Hi' as <- <-.
  exact Hrun'.
Qed.

(** ** Without credentials *)

(** C4. With none of the five credentials configured, [verifyStatement]
    issues no request and returns: four agents, each inconclusive with
    confidence 0 and the reasoning "API key not configured"; the consensus
    inconclusive with score 4/4 = 1; no correction. *)
Theorem verifyStatement_without_credentials (env : Env) (statement : string)
    (log : list Request) :
  anthropic_apiKey (apiConfig env) = "" ->
  fetchAI_apiKey (apiConfig env) = "" ->
  gemini_apiKey (apiConfig env) = "" ->
  brightData_apiKey (apiConfig env) = "" ->
  lavaGateway_apiKey (apiConfig env) = "" ->
  verifyStatement env statement log
  = (Normal {| statementId := randomUUID env;
               isFalse := false;
               consensus := inconclusive;
               correctInformation := undefined;
               agents := notConfigured <$> providerOrder;
               lavaGatewayConsensus :=
                 {| consensus_verdict := Str "inconclusive";
                    consensusScore := Num 1 |} |},
     log).
Proof.
  intros Ha Hf Hg Hb Hl.
  unfold verifyStatement, bind at 1.
  rewrite (Promise_all_fulfilled _ _ (notConfigured <$> providerOrder) log log).
  2:{ cbn [start_all].
      unfold verifyWithClaude, verifyWithFetchAI, verifyWithGemini, verifyWithBrightData.
      rewrite Ha, Hf, Hg, Hb. reflexivity. }
  cbn [fmap list_fmap providerOrder lookup list_lookup].
  unfold bind at 1, getLavaGatewayConsensus. rewrite Hl.
  reflexivity.
Qed.

Lemma verifyStatement_without_credentials_witness :
  let env := sampleEnv (withKeys "" "" "" "" "") [] [] in
  exists result,
    verifyStatement env "The Earth is flat" [] = (Normal result, [])
    /\ (verdict <$> agents result) = replicate 4 (Str "inconclusive")
    /\ (confidence <$> agents result) = replicate 4 (Num 0)
    /\ lavaGatewayConsensus result
       = {| consensus_verdict := Str "inconclusive"; consensusScore := Num 1 |}
    /\ correctInformation result = undefined.
Proof.
  eexists. split.
  - exact (verifyStatement_without_credentials
             (sampleEnv (withKeys "" "" "" "" "") [] []) "The Earth is flat" []
             eq_refl eq_refl eq_refl eq_refl eq_refl).
  - repeat split.
Defined.

(** ** The consensus resolver *)

Lemma missing_configured (apiKey : string) : apiKey <> "" -> missing apiKey = false.
Proof. intros H. unfold missing. by apply String.eqb_neq. Qed.

(** Unfolds one asynchronous function down to the outcome of its request. *)
Ltac run_task :=
  unfold try_catch, bind, fetch, lift, throw, ret; cbn beta iota.

(** C3. The consensus resolver never throws. Without the gateway credential
    it returns the local consensus and issues no request. With it, a network
    error, a status that is not a success, a body that is not JSON, or a
    body that is [null] (whose fields cannot be read) all end in the local
    consensus; any other answer is used as is: the verdict and the score are
    the answer's [verdict] and [score] fields. *)
Theorem getLavaGatewayConsensus_resolves (env : Env)
    (agents : list VerificationAgent) (log : list Request) :
  let request := gatewayRequest env agents in
  let run := getLavaGatewayConsensus env agents log in
  let fallback := (Normal (calculateLocalConsensus agents), log ++ [request]) in
  (exists outcome log', run = (Normal outcome, log'))
  /\ (lavaGateway_apiKey (apiConfig env) = "" ->
      run = (Normal (calculateLocalConsensus agents), log))
  /\ (lavaGateway_apiKey (apiConfig env) <> "" ->
      match network env log request with
      | Throw _ => run = fallback
      | Normal response =>
          if ok response then
            match json_body response with
            | Throw _ => run = fallback
            | Normal JNull => run = fallback
            | Normal data =>
                run = (Normal {| consensus_verdict := member data (Named "verdict");
                                 consensusScore := member data (Named "score") |},
                       log ++ [request])
            end
          else run = fallback
      end).
Proof.
  intros request run fallback. split; [| split].
  - destruct (getLavaGatewayConsensus_returns env agents log) as (o & l & H & _).
    by exists o, l.
  - intros Hkey. subst run. unfold getLavaGatewayConsensus. by rewrite Hkey.
  - intros Hkey. subst run fallback request. unfold getLavaGatewayConsensus.
    rewrite (missing_configured _ Hkey). run_task.
    destruct (network env log (gatewayRequest env agents)) as [response|e];
      [| reflexivity].
    destruct (ok response); [| reflexivity].
    destruct (json_body response) as [data|e]; [| reflexivity].
    destruct data; reflexivity.
Qed.

(** The resolver on the fixed array of three false votes: without a key,
    behind a gateway that is down, and behind one that answers. *)
Example gateway_not_configured :
  getLavaGatewayConsensus (sampleEnv (withKeys "" "" "" "" "") [] []) threeFalse []
  = (Normal {| consensus_verdict := Str "false"; consensusScore := Num 0.75 |}, []).
Proof. reflexivity. Qed.

Example gateway_unavailable :
  let env := sampleEnv (withKeys "" "" "" "" "lava-key") []
               [failure "Service Unavailable"] in
  getLavaGatewayConsensus env threeFalse []
  = (Normal {| consensus_verdict := Str "false"; consensusScore := Num 0.75 |},
     [gatewayRequest env threeFalse]).
Proof. reflexivity. Qed.

Example gateway_trusted :
  let env := sampleEnv (withKeys "" "" "" "" "lava-key") []
               [success (JObj [("verdict", JStr "true"); ("score", JNum 0.5)])] in
  getLavaGatewayConsensus env threeFalse []
  = (Normal {| consensus_verdict := Str "true"; consensusScore := Num 0.5 |},
     [gatewayRequest env threeFalse]).
Proof. reflexivity. Qed.

(** ** The Bright Data adapter *)

Lemma hasResults_array env fields results :
  assoc "results" fields = Some (JArr results) ->
  (Z.of_nat (length results) < 2 ^ 32)%Z ->
  hasResults env (JObj fields)
  = Normal (match results with [] => false | _ :: _ => true end).
Proof.
  intros Hresults Hbound. unfold hasResults, get, member.
  change (key_name (Named "results")) with "results". rewrite Hresults.
  cbn [truthy String.eqb Ascii.eqb Bool.eqb].
  unfold gt_zero, ToNumber, Num.
  destruct results as [|result results]; [reflexivity |].
  rewrite Number_of_nat_positive; [reflexivity |].
  split; [| exact Hbound]. cbn [length]. lia.
Qed.

(** C7. On a successful search response whose [results] is an array, the
    Bright Data adapter returns the verdict "true" with confidence 0.75 when
    the array has at least one result and "inconclusive" with confidence 0.3
    when it has none. The agent is one of two constants, chosen by whether
    there is a result: nothing else of the response reaches it. *)
Theorem verifyWithBrightData_heuristic (env : Env) (statement : string)
    (log : list Request) (response : Response) (fields : list (string * json))
    (results : list json) :
  brightData_apiKey (apiConfig env) <> "" ->
  network env log (brightDataRequest env statement) = Normal response ->
  ok response = true ->
  json_body response = Normal (JObj fields) ->
  assoc "results" fields = Some (JArr results) ->
  (Z.of_nat (length results) < 2 ^ 32)%Z ->
  verifyWithBrightData env statement log
  = (Normal (match results with [] => noSources | _ :: _ => sourcesFound end),
     log ++ [brightDataRequest env statement]).
Proof.
  intros Hkey Hnet Hok Hbody Hresults Hbound.
  unfold verifyWithBrightData. rewrite (missing_configured _ Hkey).
  run_task. rewrite Hnet, Hok. cbn [negb]. rewrite Hbody.
  rewrite (hasResults_array env fields results Hresults Hbound).
  destruct results; reflexivity.
Qed.

Lemma verifyWithBrightData_heuristic_witness :
  let found := sampleEnv (withKeys "" "" "" "bright-key" "") []
                 [success (JObj [("results", JArr [searchHit; searchHit])])] in
  let empty := sampleEnv (withKeys "" "" "" "bright-key" "") []
                 [success (JObj [("results", JArr [])])] in
  fst (verifyWithBrightData found "The Earth is flat" []) = Normal sourcesFound
  /\ fst (verifyWithBrightData empty "The Earth is flat" []) = Normal noSources.
Proof.
  split.
  - rewrite (verifyWithBrightData_heuristic
               (sampleEnv (withKeys "" "" "" "bright-key" "") []
                  [success (JObj [("results", JArr [searchHit; searchHit])])])
               "The Earth is flat" [] _ _ [searchHit; searchHit]
               ltac:(discriminate) eq_refl eq_refl eq_refl eq_refl eq_refl).
    reflexivity.
  - rewrite (verifyWithBrightData_heuristic
               (sampleEnv (withKeys "" "" "" "bright-key" "") []
                  [success (JObj [("results", JArr [])])])
               "The Earth is flat" [] _ _ []
               ltac:(discriminate) eq_refl eq_refl eq_refl eq_refl eq_refl).
    reflexivity.
Defined.

(** A body without a [results] field counts as no result. *)
Example verifyWithBrightData_without_results_field :
  fst (verifyWithBrightData
         (sampleEnv (withKeys "" "" "" "bright-key" "") [] [success (JObj [])])
         "The Earth is flat" [])
  = Normal noSources.
Proof. reflexivity. Qed.

(** ** The Fetch.ai adapter *)

(** C8, as stated, fails: an answer that supplies the confidence 0 comes back
    with the confidence 0.8, because [data.confidence || 0.8] replaces every
    falsy value and not only a missing one. *)
Lemma verifyWithFetchAI_replaces_zero_confidence :
  let env := sampleEnv (withKeys "" "fetch-key" "" "" "") [] [success zeroConfidence] in
  member zeroConfidence (Named "confidence") = Num 0
  /\ exists agent,
       fst (verifyWithFetchAI env "The Earth is flat" []) = Normal agent
       /\ verdict agent = Str "false"
       /\ confidence agent = Num 0.8
       /\ confidence agent <> member zeroConfidence (Named "confidence").
Proof.
  split; [reflexivity |]. eexists. split; [reflexivity |].
  split; [reflexivity |]. split; [reflexivity |].
  intros H.
  apply (f_equal (fun v => match v with
                           | Some (JNum x) => PrimFloat.eqb x 0
                           | _ => false
                           end)) in H.
  vm_compute in H. discriminate H.
Qed.

(** C8, amended. On a successful Fetch.ai response the adapter returns the
    response's verdict, confidence and reasoning whenever the response
    supplies truthy ones (a non-empty verdict, a non-zero confidence, a
    non-empty reasoning), and the defaults, inconclusive, 0.8 and
    "Fetch.ai agent verification", for the fields the response omits. *)
Theorem verifyWithFetchAI_reads_fields (env : Env) (statement : string)
    (log : list Request) (response : Response) (data : json) :
  fetchAI_apiKey (apiConfig env) <> "" ->
  network env log (fetchAIRequest env statement) = Normal response ->
  ok response = true ->
  json_body response = Normal data ->
  data <> JNull ->
  exists agent,
    verifyWithFetchAI env statement log
    = (Normal agent, log ++ [fetchAIRequest env statement])
    /\ name agent = "Fetch.ai"
    /\ (truthy (member data (Named "verdict")) = true ->
        verdict agent = member data (Named "verdict"))
    /\ (truthy (member data (Named "confidence")) = true ->
        confidence agent = member data (Named "confidence"))
    /\ (truthy (member data (Named "reasoning")) = true ->
        reasoning agent = member data (Named "reasoning"))
    /\ (member data (Named "verdict") = undefined ->
        verdict agent = Str "inconclusive")
    /\ (member data (Named "confidence") = undefined ->
        confidence agent = Num 0.8)
    /\ (member data (Named "reasoning") = undefined ->
        reasoning agent = Str "Fetch.ai agent verification").
Proof.
  intros Hkey Hnet Hok Hbody Hdata.
  unfold verifyWithFetchAI. rewrite (missing_configured _ Hkey).
  run_task. rewrite Hnet, Hok. cbn [negb]. rewrite Hbody.
  assert (Hget : forall k, get (runtime env) (Some data) k = Normal (member data k)).
  { intros k. destruct data; try reflexivity. congruence. }
  rewrite !Hget. eexists. split; [reflexivity |].
  cbn [name verdict confidence reasoning]. unfold or_else.
  split; [reflexivity |].
  repeat split; intros H; rewrite H; reflexivity.
Qed.

Lemma verifyWithFetchAI_reads_fields_witness :
  let env := sampleEnv (withKeys "" "fetch-key" "" "" "") [] [success terseAnswer] in
  exists agent,
    verifyWithFetchAI env "The Earth is flat" []
    = (Normal agent, [fetchAIRequest env "The Earth is flat"])
    /\ verdict agent = Str "false"
    /\ confidence agent = Num 0.9
    /\ reasoning agent = Str "Fetch.ai agent verification".
Proof.
  destruct (verifyWithFetchAI_reads_fields
              (sampleEnv (withKeys "" "fetch-key" "" "" "") [] [success terseAnswer])
              "The Earth is flat" [] _ terseAnswer
              ltac:(discriminate) eq_refl eq_refl eq_refl ltac:(discriminate))
    as (agent & Hrun & _ & Hv & Hc & _ & _ & _ & Hr).
  exists agent. split; [exact Hrun |].
  split; [exact (Hv eq_refl) |]. split; [exact (Hc eq_refl) | exact (Hr eq_refl)].
Defined.

(** ** The correction synthesizer *)

Lemma falseReasonings_first agents :
  match firstFalseReasoning agents with
  | None => falseReasonings agents = []
  | Some agent => exists rest, falseReasonings agents = reasoning agent :: rest
  end.
Proof.
  unfold firstFalseReasoning, falseReasonings.
  induction agents as [|a agents IH]; [reflexivity |].
  cbn [List.find List.filter List.map].
  destruct (is_string "false" (verdict a)); cbn [andb List.map List.filter].
  - destruct (truthy (reasoning a)); [by eexists | exact IH].
  - exact IH.
Qed.

(** When the first agent that voted false gave a reasoning, it is that
    agent's. *)
Lemma firstFalseReasoning_first_voter agents agent :
  List.find (fun a => is_string "false" (verdict a)) agents = Some agent ->
  truthy (reasoning agent) = true ->
  firstFalseReasoning agents = Some agent.
Proof.
  unfold firstFalseReasoning.
  induction agents as [|a agents IH]; [discriminate |].
  cbn [List.find]. destruct (is_string "false" (verdict a)); cbn [andb].
  - intros H Ht. injection H as ->. by rewrite Ht.
  - exact IH.
Qed.

(** C9. The correction synthesizer never throws. When no agent that voted
    false has a reasoning it returns the fixed message, without a request.
    Otherwise, when the Claude credential is absent or the synthesis request
    fails, it returns "Correction: " followed by the reasoning of the first
    agent that voted false and gave one. *)
Theorem generateCorrectInformation_fallbacks (env : Env) (falseStatement : string)
    (agents : list VerificationAgent) (log : list Request) :
  let run := generateCorrectInformation env falseStatement agents log in
  (exists text log', run = (Normal text, log'))
  /\ match firstFalseReasoning agents with
     | None => run = (Normal (Str unavailable), log)
     | Some agent =>
         let fallback :=
           Str ("Correction: " +:+ ToString (runtime env) (reasoning agent)) in
         (anthropic_apiKey (apiConfig env) = "" -> run = (Normal fallback, log))
         /\ (anthropic_apiKey (apiConfig env) <> "" ->
             synthesisFails env falseStatement agents log ->
             run = (Normal fallback,
                    log ++ [synthesisRequest env falseStatement agents]))
     end.
Proof.
  intros run. split.
  - destruct (generateCorrectInformation_returns env falseStatement agents log)
      as (text & log' & H & _).
    by exists text, log'.
  - subst run. unfold generateCorrectInformation, synthesisFails, synthesisRequest.
    pose proof (falseReasonings_first agents) as Hfirst.
    destruct (firstFalseReasoning agents) as [agent|].
    + destruct Hfirst as (rest & Hfirst). rewrite Hfirst.
      cbn [length Nat.eqb lookup list_lookup mjoin option_join].
      split.
      * intros Hkey. unfold synthesize. rewrite Hkey. reflexivity.
      * intros Hkey Hfails. unfold synthesize.
        rewrite (missing_configured _ Hkey). run_task.
        destruct (network env log _) as [response|e]; [| reflexivity].
        destruct (ok response); [| reflexivity].
        destruct (json_body response) as [data|e]; [| reflexivity].
        destruct Hfails as (e & ->). reflexivity.
    + rewrite Hfirst. reflexivity.
Qed.

(** The synthesizer on the fixed array of three false votes, whose agents
    all give the reasoning "checked": without the Claude key, and behind a
    synthesis call that is refused. *)
Example correction_without_key :
  generateCorrectInformation (sampleEnv (withKeys "" "" "" "" "") [] [])
    "The Earth is flat" threeFalse []
  = (Normal (Str "Correction: checked"), []).
Proof. reflexivity. Qed.

Example correction_after_refusal :
  let env := sampleEnv (withKeys "claude-key" "" "" "" "") []
               [failure "Too Many Requests"] in
  synthesisFails env "The Earth is flat" threeFalse []
  /\ generateCorrectInformation env "The Earth is flat" threeFalse []
     = (Normal (Str "Correction: checked"),
        [synthesisRequest env "The Earth is flat" threeFalse]).
Proof. split; [exact I | reflexivity]. Qed.

Example correction_unavailable :
  generateCorrectInformation (sampleEnv (withKeys "claude-key" "" "" "" "") [] [])
    "The Earth is flat" (notConfigured <$> providerOrder) []
  = (Normal (Str unavailable), []).
Proof. reflexivity. Qed.

(** ** The request log *)

Lemma silent_ret {A} (a : A) : silent (ret a).
Proof. intros log. reflexivity. Qed.

Lemma silent_throw {A} (e : thrown) : silent (@throw A e).
Proof. intros log. reflexivity. Qed.

Lemma silent_lift {A} (r : completion A) : silent (lift r).
Proof. intros log. reflexivity. Qed.

Lemma silent_bind {A B} (c : Task A) (k : A -> Task B) :
  silent c -> (forall a, silent (k a)) -> silent (bind c k).
Proof.
  intros Hc Hk log. unfold bind. specialize (Hc log).
  destruct (c log) as [[a|e] log1]; cbn [snd] in *; subst log1; [apply Hk | reflexivity].
Qed.

Ltac silent_body :=
  repeat lazymatch goal with
    | |- silent (ret _) => apply silent_ret
    | |- silent (throw _) => apply silent_throw
    | |- silent (lift _) => apply silent_lift
    | |- silent (bind _ _) => apply silent_bind; [| intro]
    | |- silent (if ?b then _ else _) => destruct b
    | |- silent (match ?x with _ => _ end) => destruct x
    end.

(** A [try] that starts with a [fetch] and is otherwise silent issues that
    one request, however it ends. *)
Lemma one_request {A} (net : Network) (request : Request)
    (k : Response -> Task A) (handler : thrown -> Task A) (log : list Request) :
  (forall response, silent (k response)) -> (forall e, silent (handler e)) ->
  snd (try_catch (bind (fetch net request) k) handler log) = log ++ [request].
Proof.
  intros Hk Hh. unfold try_catch, bind, fetch.
  destruct (net log request) as [response|e].
  - specialize (Hk response (log ++ [request])).
    destruct (k response (log ++ [request])) as [[a|e] log1]; cbn [snd] in *.
    + exact Hk.
    + subst log1. apply Hh.
  - apply Hh.
Qed.

Ltac adapter_log :=
  lazymatch goal with
  | |- snd ((if missing ?key then _ else _) _) = _ =>
      unfold ifConfigured; destruct (missing key);
      [ cbn; by rewrite app_nil_r
      | apply one_request; intros; silent_body ]
  end.

Lemma verifyWithClaude_log env statement log :
  snd (verifyWithClaude env statement log)
  = log ++ ifConfigured (anthropic_apiKey (apiConfig env))
             (claudeRequest env 1024 (factCheckPrompt statement)).
Proof. unfold verifyWithClaude. adapter_log. Qed.

Lemma verifyWithFetchAI_log env statement log :
  snd (verifyWithFetchAI env statement log)
  = log ++ ifConfigured (fetchAI_apiKey (apiConfig env)) (fetchAIRequest env statement).
Proof. unfold verifyWithFetchAI. adapter_log. Qed.

Lemma verifyWithGemini_log env statement log :
  snd (verifyWithGemini env statement log)
  = log ++ ifConfigured (gemini_apiKey (apiConfig env)) (geminiRequest env statement).
Proof. unfold verifyWithGemini. adapter_log. Qed.

Lemma verifyWithBrightData_log env statement log :
  snd (verifyWithBrightData env statement log)
  = log ++ ifConfigured (brightData_apiKey (apiConfig env))
             (brightDataRequest env statement).
Proof. unfold verifyWithBrightData. adapter_log. Qed.

Lemma getLavaGatewayConsensus_log env agents log :
  snd (getLavaGatewayConsensus env agents log)
  = log ++ ifConfigured (lavaGateway_apiKey (apiConfig env)) (gatewayRequest env agents).
Proof. unfold getLavaGatewayConsensus. adapter_log. Qed.

Lemma generateCorrectInformation_log env falseStatement agents log :
  snd (generateCorrectInformation env falseStatement agents log) = log
  \/ (missing (anthropic_apiKey (apiConfig env)) = false
      /\ snd (generateCorrectInformation env falseStatement agents log)
         = log ++ [synthesisRequest env falseStatement agents]).
Proof.
  unfold generateCorrectInformation, synthesisRequest.
  destruct (Nat.eqb _ _); [by left |].
  unfold synthesize. destruct (missing _) eqn:Hkey; [by left |]. right.
  split; [reflexivity |].
  unfold bind at 1.
  pose proof (one_request (network env)
    (claudeRequest env 512
       (correctionPrompt (runtime env) falseStatement (falseReasonings agents)))
    (fun response => if ok response
       then bind (lift (json_body response))
              (fun data => bind (lift (contentText env data)) (fun text => ret (Some text)))
       else ret None)
    (fun _ => ret None) log) as Hone.
  match type of Hone with _ -> _ -> snd ?c = _ => destruct c as [[attempt|e] log1] end;
    cbn [snd] in Hone; rewrite <- Hone; try (intros; silent_body).
  - by destruct attempt.
  - reflexivity.
Qed.

(** The log after the four adapters. *)
Lemma adapters_log env statement log c l1 f l2 g l3 b l4 :
  verifyWithClaude env statement log = (Normal c, l1) ->
  verifyWithFetchAI env statement l1 = (Normal f, l2) ->
  verifyWithGemini env statement l2 = (Normal g, l3) ->
  verifyWithBrightData env statement l3 = (Normal b, l4) ->
  l4 = log ++ adapterRequests env statement.
Proof.
  intros Hc Hf Hg Hb.
  pose proof (verifyWithClaude_log env statement log) as H1.
  pose proof (verifyWithFetchAI_log env statement l1) as H2.
  pose proof (verifyWithGemini_log env statement l2) as H3.
  pose proof (verifyWithBrightData_log env statement l3) as H4.
  rewrite Hc in H1. rewrite Hf in H2. rewrite Hg in H3. rewrite Hb in H4.
  cbn [snd] in *. subst l1 l2 l3 l4. unfold adapterRequests.
  by rewrite <- !app_assoc.
Qed.

Lemma missing_false_configured apiKey : missing apiKey = false -> apiKey <> "".
Proof. unfold missing. intros H. by apply String.eqb_neq. Qed.

(** Every way [generateCorrectInformation] returns: the fixed message when
    no agent that voted false gave a reasoning; otherwise the fallback built
    on the first such reasoning, without a key or when the synthesis request
    fails, and else the text of the successful synthesis response, whatever
    that is. *)
Lemma generateCorrectInformation_cases env falseStatement agents log text log' :
  generateCorrectInformation env falseStatement agents log = (Normal text, log') ->
  match firstFalseReasoning agents with
  | None => text = Str unavailable
  | Some agent =>
      let fallback :=
        Str ("Correction: " +:+ ToString (runtime env) (reasoning agent)) in
      (anthropic_apiKey (apiConfig env) = "" /\ text = fallback)
      \/ (anthropic_apiKey (apiConfig env) <> ""
          /\ synthesisFails env falseStatement agents log
          /\ text = fallback)
      \/ (anthropic_apiKey (apiConfig env) <> ""
          /\ exists response data,
               network env log (synthesisRequest env falseStatement agents)
               = Normal response
               /\ ok response = true
               /\ json_body response = Normal data
               /\ contentText env data = Normal text)
  end.
Proof.
  unfold generateCorrectInformation, synthesisFails, synthesisRequest.
  pose proof (falseReasonings_first agents) as Hfirst.
  destruct (firstFalseReasoning agents) as [agent|].
  2:{ rewrite Hfirst. intros H. by injection H as <- _. }
  destruct Hfirst as (rest & Hfirst). rewrite Hfirst.
  cbn [length Nat.eqb lookup list_lookup mjoin option_join].
  unfold synthesize. destruct (missing _) eqn:Hkey.
  { intros H. injection H as <- _. left. split; [| reflexivity].
    by apply String.eqb_eq. }
  apply missing_false_configured in Hkey. run_task.
  destruct (network env log _) as [response|e].
  2:{ intros H. injection H as <- _. right. left. by repeat split. }
  destruct (ok response) eqn:Hok.
  2:{ intros H. injection H as <- _. right. left. by repeat split. }
  destruct (json_body response) as [data|e] eqn:Hbody.
  2:{ intros H. injection H as <- _. right. left. by repeat split. }
  destruct (contentText env data) as [t|e] eqn:Htext.
  2:{ intros H. injection H as <- _. right. left.
      split; [exact Hkey |]. split; [by exists e | reflexivity]. }
  intros H. injection H as <- _. right. right.
  split; [exact Hkey |]. by exists response, data.
Qed.

(** ** Correction gating *)

Lemma is_string_exclusive (v : value) :
  is_string "false" v = true -> is_string "true" v = false.
Proof.
  destruct v as [[| | |s| |]|]; try discriminate. cbn [is_string].
  intros H. apply String.eqb_eq in H. by subst s.
Qed.

Lemma label_false (v : value) :
  is_string "false" v = true <-> label v = verified_false.
Proof.
  unfold label. split.
  - intros H. by rewrite (is_string_exclusive v H), H.
  - destruct (is_string "true" v); [discriminate |].
    by destruct (is_string "false" v).
Qed.

(** The end-to-end scenario of the specification. *)
Example the_earth_is_flat :
  let synthesis :=
    success (JObj [("content",
                    JArr [JObj [("type", JStr "text");
                                ("text", JStr "The Earth is round.")]])]) in
  exists result log',
    verifyStatement (flatEarth synthesis) "The Earth is flat" [] = (Normal result, log')
    /\ isFalse result = true
    /\ consensus result = verified_false
    /\ correctInformation result = Str "The Earth is round."
    /\ length (agents result) = 4
    /\ length log' = 5.
Proof. eexists _, _. split; [vm_compute; reflexivity |]. repeat split. Qed.

(** C5, as stated, fails: in this run the consensus is false and the result
    carries no correction, because the synthesizer returns the
    [content[0].text] of a successful response unchecked. *)
Lemma correctInformation_absent_when_false :
  exists result log',
    verifyStatement (flatEarth withoutText) "The Earth is flat" []
    = (Normal result, log')
    /\ isFalse result = true
    /\ consensus result = verified_false
    /\ correctInformation result = undefined.
Proof. eexists _, _. split; [vm_compute; reflexivity |]. repeat split. Qed.

(** C5, amended. In every result, [isFalse] holds exactly when the consensus
    is verified_false, and a result whose consensus is verified_true or
    inconclusive carries no correction. When [isFalse] holds, the correction
    is what the synthesizer returned for the statement and the four agents,
    called after the requests of the adapters and of the gateway: the fixed
    message when no agent that voted false gave a reasoning; otherwise the
    "Correction: ..." fallback on the first such reasoning, without the Claude
    key or when the synthesis request fails, and else the [content[0].text]
    of the successful response to that request, passed on as it is. *)
Theorem correctInformation_gated (env : Env) (statement : string)
    (log : list Request) :
  exists result log',
    verifyStatement env statement log = (Normal result, log')
    /\ (isFalse result = true <-> consensus result = verified_false)
    /\ (isFalse result = false -> correctInformation result = undefined)
    /\ (isFalse result = true ->
        let before :=
          log ++ adapterRequests env statement
              ++ ifConfigured (lavaGateway_apiKey (apiConfig env))
                   (gatewayRequest env (agents result)) in
        generateCorrectInformation env statement (agents result) before
        = (Normal (correctInformation result), log')
        /\ match firstFalseReasoning (agents result) with
           | None => correctInformation result = Str unavailable
           | Some agent =>
               let fallback :=
                 Str ("Correction: " +:+ ToString (runtime env) (reasoning agent)) in
               (anthropic_apiKey (apiConfig env) = ""
                /\ correctInformation result = fallback)
               \/ (anthropic_apiKey (apiConfig env) <> ""
                   /\ synthesisFails env statement (agents result) before
                   /\ correctInformation result = fallback)
               \/ (anthropic_apiKey (apiConfig env) <> ""
                   /\ exists response data,
                        network env before
                          (synthesisRequest env statement (agents result))
                        = Normal response
                        /\ ok response = true
                        /\ json_body response = Normal data
                        /\ contentText env data
                           = Normal (correctInformation result))
           end).
Proof.
  destruct (verifyStatement_run env statement log)
    as (c & f & g & b & l1 & l2 & l3 & l4 & outcome & l5 & info & l6 & H).
  destruct H as (Hc & Hf & Hg & Hb & _ & Ho & Hinfo & Hrun).
  pose proof (adapters_log _ _ _ _ _ _ _ _ _ _ _ Hc Hf Hg Hb) as Hl4.
  pose proof (getLavaGatewayConsensus_log env [c; f; g; b] l4) as Hl5.
  rewrite Ho in Hl5. cbn [snd] in Hl5. rewrite Hl4, <- app_assoc in Hl5.
  eexists _, _. split; [exact Hrun |].
  cbn [isFalse consensus correctInformation agents].
  split; [apply label_false |].
  destruct (is_string "false" (consensus_verdict outcome)).
  - split; [discriminate |]. intros _. cbn zeta. rewrite <- Hl5.
    split; [exact Hinfo |].
    exact (generateCorrectInformation_cases _ _ _ _ _ _ Hinfo).
  - split; [| discriminate]. intros _. by injection Hinfo as <- _.
Qed.

(** * Further properties

    Of the verification service: the requests it issues, what the votes can
    be, how the adapters fail. Of its callers, of the configuration helpers
    of [api-config.ts] and of [VoiceService]: the classifier and [speak]. *)

(** ** Which requests a run issues *)

(** X1. The requests of one run of [verifyStatement] are, in this order:
    one to each adapter whose key is configured; one to the gateway when its
    key is configured; and at most one synthesis request, issued only when
    the result is false and the Claude key is configured. No provider
    without a key is ever contacted. *)
Theorem verifyStatement_requests (env : Env) (statement : string) (log : list Request) :
  exists result log' synthesis,
    verifyStatement env statement log = (Normal result, log')
    /\ log' = log ++ adapterRequests env statement
                  ++ ifConfigured (lavaGateway_apiKey (apiConfig env))
                       (gatewayRequest env (agents result))
                  ++ synthesis
    /\ (synthesis = []
        \/ (synthesis = [synthesisRequest env statement (agents result)]
            /\ isFalse result = true
            /\ anthropic_apiKey (apiConfig env) <> "")).
Proof.
  destruct (verifyStatement_run env statement log)
    as (c & f & g & b & l1 & l2 & l3 & l4 & outcome & l5 & info & l6 & H).
  destruct H as (Hc & Hf & Hg & Hb & _ & Ho & Hi & Hrun).
  pose proof (adapters_log _ _ _ _ _ _ _ _ _ _ _ Hc Hf Hg Hb) as Hl4.
  assert (Hl5 : l5 = l4 ++ ifConfigured (lavaGateway_apiKey (apiConfig env))
                             (gatewayRequest env [c; f; g; b])).
  { pose proof (getLavaGatewayConsensus_log env [c; f; g; b] l4) as H5.
    rewrite Ho in H5. exact H5. }
  destruct (is_string "false" (consensus_verdict outcome)) eqn:Hfalse.
  - pose proof (generateCorrectInformation_log env statement [c; f; g; b] l5) as H6.
    rewrite Hi in H6. cbn [snd] in H6.
    destruct H6 as [H6 | [Hkey H6]].
    + eexists _, _, []. split; [exact Hrun |]. cbn [agents].
      split; [| by left]. subst l6 l5 l4. by rewrite app_nil_r, <- !app_assoc.
    + eexists _, _, _. split; [exact Hrun |]. cbn [agents isFalse].
      split; [| right; split; [reflexivity | split; [reflexivity |
                 by apply missing_false_configured]]].
      subst l6 l5 l4. by rewrite <- !app_assoc.
  - injection Hi as _ <-. eexists _, _, []. split; [exact Hrun |]. cbn [agents].
    split; [| by left]. subst l5 l4. by rewrite app_nil_r, <- !app_assoc.
Qed.

Example verifyStatement_requests_flat_earth :
  let env := flatEarth roundEarth in
  snd (verifyStatement env "The Earth is flat" [])
  = adapterRequests env "The Earth is flat"
    ++ [synthesisRequest env "The Earth is flat"
          [parsedAgent env "Claude (Anthropic)" (Str flatVerdictText);
           {| name := "Fetch.ai"; verdict := Str "false"; confidence := Num 0.95;
              reasoning := Str "The Earth is an oblate spheroid" |};
           parsedAgent env "Gemini (Google)" (Str flatVerdictText);
           sourcesFound]].
Proof. vm_compute. reflexivity. Qed.

(** ** What the votes can be *)

Lemma is_string_true (s : string) (v : value) : is_string s v = true -> v = Str s.
Proof.
  destruct v as [[| | |s'| |]|]; try discriminate. cbn [is_string].
  intros H. apply String.eqb_eq in H. by subst s'.
Qed.

Lemma verifyWithBrightData_verdicts env statement :
  returns (verifyWithBrightData env statement) searchVerdict.
Proof.
  unfold verifyWithBrightData, searchVerdict. destruct (missing _).
  - apply returns_ret. right. split; [reflexivity | by right].
  - apply returns_try_catch.
    + ensures_body. cbn [verdict confidence].
      match goal with |- context [if ?found then _ else _] => destruct found end.
      * left. by split.
      * right. split; [reflexivity | by left].
    + intros e. apply returns_ret. right. split; [reflexivity | by right].
Qed.

Lemma searchVerdict_not_false agent :
  searchVerdict agent -> is_string "false" (verdict agent) = false.
Proof. by intros [[-> _] | [-> _]]. Qed.

(** X2. Whatever the search returns and however the request ends, the
    Bright Data adapter returns the verdict true with confidence 0.75 or the
    verdict inconclusive with confidence 0.3 or 0: it never votes false. *)
Theorem verifyWithBrightData_never_false (env : Env) (statement : string)
    (log : list Request) :
  exists agent log',
    verifyWithBrightData env statement log = (Normal agent, log')
    /\ searchVerdict agent
    /\ verdict agent <> Str "false".
Proof.
  destruct (verifyWithBrightData_verdicts env statement log) as (agent & log' & H & Hs).
  exists agent, log'. split; [exact H |]. split; [exact Hs |].
  intros Hv. apply searchVerdict_not_false in Hs. by rewrite Hv in Hs.
Qed.

(** X3. Without a gateway key, a result is false only when Claude, Fetch.ai
    and Gemini all voted false: Bright Data never does, and the local
    threshold needs three of the four votes. *)
Theorem local_false_is_unanimous (env : Env) (statement : string) (log : list Request) :
  lavaGateway_apiKey (apiConfig env) = "" ->
  exists result log' claude fetchAI gemini brightData,
    verifyStatement env statement log = (Normal result, log')
    /\ agents result = [claude; fetchAI; gemini; brightData]
    /\ verdict brightData <> Str "false"
    /\ (isFalse result = true ->
        verdict claude = Str "false"
        /\ verdict fetchAI = Str "false"
        /\ verdict gemini = Str "false").
Proof.
  intros Hkey.
  destruct (verifyStatement_run env statement log)
    as (c & f & g & b & l1 & l2 & l3 & l4 & outcome & l5 & info & l6 & H).
  destruct H as (_ & _ & _ & Hb & _ & Ho & _ & Hrun).
  destruct (verifyWithBrightData_verdicts env statement l3) as (b' & l4' & Hb' & Hsearch).
  rewrite Hb in Hb'. injection Hb' as <- <-.
  apply searchVerdict_not_false in Hsearch.
  unfold getLavaGatewayConsensus in Ho. rewrite Hkey in Ho.
  injection Ho as <- <-.
  eexists _, l6, c, f, g, b. split; [exact Hrun |]. split; [reflexivity |].
  split. { intros Hv. by rewrite Hv in Hsearch. }
  cbn [isFalse]. unfold calculateLocalConsensus, falseCount.
  cbn [List.filter length]. rewrite Hsearch.
  destruct (is_string "false" (verdict c)) eqn:Hc;
    destruct (is_string "false" (verdict f)) eqn:Hf;
    destruct (is_string "false" (verdict g)) eqn:Hg;
    cbn [length];
    try (apply is_string_true in Hc, Hf, Hg; by intros _);
    match goal with
    | |- context [PrimFloat.leb consensusThreshold (fraction ?n 4)] =>
        change (PrimFloat.leb consensusThreshold (fraction n 4)) with false
    end;
    cbn iota;
    match goal with |- context [if ?b then _ else _] => destruct b end;
    discriminate.
Qed.

Lemma local_false_is_unanimous_witness :
  exists result log',
    verifyStatement (flatEarth roundEarth) "The Earth is flat" [] = (Normal result, log')
    /\ isFalse result = true
    /\ (verdict <$> agents result) = [Str "false"; Str "false"; Str "false"; Str "true"].
Proof.
  destruct (local_false_is_unanimous (flatEarth roundEarth) "The Earth is flat" [] eq_refl)
    as (result & log' & c & f & g & b & Hrun & Hagents & Hb & Hfalse).
  exists result, log'. split; [exact Hrun |].
  assert (Hr : fst (verifyStatement (flatEarth roundEarth) "The Earth is flat" [])
               = Normal result) by (by rewrite Hrun).
  vm_compute in Hr. injection Hr as <-. split; reflexivity.
Defined.

(** ** The local vote count again *)

Lemma filter_length_Permutation {A} (f : A -> bool) (l l' : list A) :
  Permutation l l' -> length (List.filter f l) = length (List.filter f l').
Proof.
  induction 1 as [|x l l' _ IH|x y l|l l' l'' _ IH1 _ IH2]; cbn [List.filter].
  - reflexivity.
  - destruct (f x); cbn [length]; by rewrite IH.
  - destruct (f x), (f y); reflexivity.
  - by rewrite IH1.
Qed.

(** X4. The local consensus does not depend on the order of the agents:
    any permutation of the array gives the same verdict and score. *)
Theorem calculateLocalConsensus_order_independent
    (agents agents' : list VerificationAgent) :
  Permutation agents agents' ->
  calculateLocalConsensus agents = calculateLocalConsensus agents'.
Proof.
  intros H. unfold calculateLocalConsensus, falseCount, trueCount, inconclusiveCount.
  rewrite (Permutation_length H).
  by rewrite !(filter_length_Permutation _ _ _ H).
Qed.

Lemma calculateLocalConsensus_order_independent_witness :
  calculateLocalConsensus (rev threeFalse) = calculateLocalConsensus threeFalse.
Proof.
  apply calculateLocalConsensus_order_independent.
  apply Permutation_sym, Permutation_rev.
Defined.

Lemma wellFormed_counts agents :
  Forall wellFormed agents ->
  falseCount agents + trueCount agents + inconclusiveCount agents = length agents.
Proof.
  unfold falseCount, trueCount, inconclusiveCount.
  induction 1 as [|a agents Ha _ IH]; [reflexivity |].
  cbn [List.filter length].
  destruct Ha as [-> | [-> | ->]]; cbn; lia.
Qed.

(** X5. When each of four agents voted true, false or inconclusive, the
    local score is at least 0.5, and an inconclusive verdict scores exactly
    0.5 unless three or four of the agents were themselves inconclusive. *)
Theorem calculateLocalConsensus_wellFormed_score (agents : list VerificationAgent) :
  length agents = 4 ->
  Forall wellFormed agents ->
  exists score,
    consensusScore (calculateLocalConsensus agents) = Num score
    /\ PrimFloat.leb 0.5 score = true
    /\ (consensus_verdict (calculateLocalConsensus agents) = Str "inconclusive" ->
        score = 0.5%float \/ inconclusiveCount agents = 3 \/ inconclusiveCount agents = 4).
Proof.
  intros Hlen Hwf. pose proof (wellFormed_counts agents Hwf) as Hsum.
  rewrite Hlen in Hsum. unfold calculateLocalConsensus. rewrite Hlen.
  generalize dependent (inconclusiveCount agents).
  generalize dependent (trueCount agents).
  generalize dependent (falseCount agents).
  intros f t i Hsum.
  assert (f <= 4 /\ t <= 4 /\ i <= 4) as (Hf & Ht & Hi) by lia.
  upto4 f; upto4 t; upto4 i; try (exfalso; lia); clear;
    vm_compute; eexists; (split; [reflexivity |]); (split; [reflexivity |]);
    intros H; first [discriminate H | by left | by right; left | by right; right].
Qed.

Lemma calculateLocalConsensus_wellFormed_score_witness :
  exists score,
    consensusScore (calculateLocalConsensus twoAgainstTwo) = Num score
    /\ PrimFloat.leb 0.5 score = true.
Proof.
  assert (Hwf : Forall wellFormed twoAgainstTwo).
  { unfold twoAgainstTwo.
    repeat (constructor; [unfold wellFormed; cbn; auto |]). constructor. }
  destruct (calculateLocalConsensus_wellFormed_score twoAgainstTwo eq_refl Hwf)
    as (score & Hscore & Hbound & _).
  by exists score.
Defined.

(** ** How the adapters fail and read *)

(** X6. A configured adapter whose request is rejected, answered with a
    status that is not a success, or answered with a body that is not JSON
    returns the agent of its [catch]: inconclusive, confidence 0, and the
    reasoning "Error: " followed by the message (for a bad status, the
    adapter's own prefix and the status text). It has issued its one
    request. *)
Theorem adapter_reports_failure (env : Env) (statement : string) (adapter : Adapter)
    (log : list Request) :
  adapter ∈ adapters env statement ->
  adapterKey adapter <> "" ->
  match network env log (adapterRequest adapter) with
  | Throw e =>
      adapterRun adapter log
      = (Normal (failed (adapterName adapter) e), log ++ [adapterRequest adapter])
  | Normal response =>
      (ok response = false ->
       adapterRun adapter log
       = (Normal (failed (adapterName adapter)
                    (ErrorObject (statusError adapter +:+ statusText response))),
          log ++ [adapterRequest adapter]))
      /\ (ok response = true -> forall e, json_body response = Throw e ->
          adapterRun adapter log
          = (Normal (failed (adapterName adapter) e), log ++ [adapterRequest adapter]))
  end.
Proof.
  intros Hin Hkey. unfold adapters in Hin.
  repeat (apply elem_of_cons in Hin as [-> | Hin]);
    [ .. | by apply elem_of_nil in Hin ];
    cbn [adapterName adapterKey adapterRequest statusError adapterRun] in *;
    [ unfold verifyWithClaude | unfold verifyWithFetchAI
    | unfold verifyWithGemini | unfold verifyWithBrightData ];
    rewrite (missing_configured _ Hkey); run_task;
    (destruct (network env log _) as [response|e]; [| reflexivity]);
    (split; [intros -> ; reflexivity | intros -> e ->; reflexivity]).
Qed.

Lemma adapter_reports_failure_witness :
  let env := sampleEnv allKeys [] [failure "Too Many Requests"] in
  verifyWithGemini env "The Earth is flat" []
  = (Normal (failed "Gemini (Google)"
               (ErrorObject "Gemini API error: Too Many Requests")),
     [geminiRequest env "The Earth is flat"]).
Proof.
  pose (env := sampleEnv allKeys [] [failure "Too Many Requests"]).
  pose (gemini :=
    {| adapterName := "Gemini (Google)";
       adapterKey := gemini_apiKey (apiConfig env);
       adapterRequest := geminiRequest env "The Earth is flat";
       statusError := "Gemini API error: ";
       adapterRun := verifyWithGemini env "The Earth is flat" |}).
  assert (Hin : gemini ∈ adapters env "The Earth is flat").
  { unfold adapters. do 2 apply list_elem_of_further. apply list_elem_of_here. }
  exact (proj1 (adapter_reports_failure env "The Earth is flat" gemini [] Hin
                  ltac:(discriminate)) eq_refl).
Defined.

(** X7. When Claude's response is a success with a readable
    [content[0].text], the adapter returns what that text parses to, as it
    is: the verdict, confidence and reasoning fields of the parsed object, a
    missing one left undefined and the verdict unchecked. Text that is not
    JSON, or that parses to [null], gives the error agent. *)
Theorem verifyWithClaude_reads_text (env : Env) (statement : string)
    (log : list Request) (response : Response) (data : json) (text : value) :
  anthropic_apiKey (apiConfig env) <> "" ->
  network env log (claudeRequest env 1024 (factCheckPrompt statement)) = Normal response ->
  ok response = true ->
  json_body response = Normal data ->
  contentText env data = Normal text ->
  verifyWithClaude env statement log
  = (Normal (parsedAgent env "Claude (Anthropic)" text),
     log ++ [claudeRequest env 1024 (factCheckPrompt statement)]).
Proof.
  intros Hkey Hnet Hok Hbody Htext.
  unfold verifyWithClaude, parsedAgent. rewrite (missing_configured _ Hkey).
  run_task. rewrite Hnet, Hok. cbn [negb]. rewrite Hbody, Htext.
  destruct (JSON_parse _ _) as [[]|e]; reflexivity.
Qed.

Lemma verifyWithClaude_reads_text_witness :
  let env := flatEarth withoutText in
  verifyWithClaude env "The Earth is flat" []
  = (Normal {| name := "Claude (Anthropic)";
               verdict := Str "false";
               confidence := Num 0.95;
               reasoning := Str "The Earth is an oblate spheroid" |},
     [claudeRequest env 1024 (factCheckPrompt "The Earth is flat")]).
Proof.
  exact (verifyWithClaude_reads_text (flatEarth withoutText) "The Earth is flat" []
           _ _ (Str flatVerdictText)
           ltac:(discriminate) eq_refl eq_refl eq_refl eq_refl).
Defined.

(** X8. The same for Gemini, whose text is
    [candidates[0].content.parts[0].text]. *)
Theorem verifyWithGemini_reads_text (env : Env) (statement : string)
    (log : list Request) (response : Response) (data : json) (text : value) :
  gemini_apiKey (apiConfig env) <> "" ->
  network env log (geminiRequest env statement) = Normal response ->
  ok response = true ->
  json_body response = Normal data ->
  candidateText env data = Normal text ->
  verifyWithGemini env statement log
  = (Normal (parsedAgent env "Gemini (Google)" text),
     log ++ [geminiRequest env statement]).
Proof.
  intros Hkey Hnet Hok Hbody Htext.
  unfold verifyWithGemini, parsedAgent. rewrite (missing_configured _ Hkey).
  run_task. rewrite Hnet, Hok. cbn [negb]. rewrite Hbody.
  unfold candidateText in Htext.
  destruct (get _ (Some data) _) as [candidates|]; [| discriminate].
  destruct (get _ candidates _) as [candidate|]; [| discriminate].
  destruct (get _ candidate _) as [content|]; [| discriminate].
  destruct (get _ content _) as [parts|]; [| discriminate].
  destruct (get _ parts _) as [part|]; [| discriminate].
  rewrite Htext.
  destruct (JSON_parse _ _) as [[]|e]; reflexivity.
Qed.

Lemma verifyWithGemini_reads_text_witness :
  verifyWithGemini geminiOnly "The Earth is flat" []
  = (Normal {| name := "Gemini (Google)";
               verdict := Str "false";
               confidence := Num 0.95;
               reasoning := Str "The Earth is an oblate spheroid" |},
     [geminiRequest geminiOnly "The Earth is flat"]).
Proof.
  exact (verifyWithGemini_reads_text geminiOnly "The Earth is flat" []
           _ _ (Str flatVerdictText)
           ltac:(discriminate) eq_refl eq_refl eq_refl eq_refl).
Defined.

(** ** The gateway and the callers *)

(** X9. With the gateway configured, when its answer to the request that
    posts the four agents' votes is a success whose body is not [null], the
    result's consensus is the gateway's alone: the [verdict] and [score]
    fields of that body as they are, whatever the four agents voted; the
    flag and the label follow that verdict, so a verdict that is neither
    "true" nor "false" is labelled inconclusive. *)
Theorem gateway_decides (env : Env) (statement : string) (log : list Request) :
  lavaGateway_apiKey (apiConfig env) <> "" ->
  exists result log',
    verifyStatement env statement log = (Normal result, log')
    /\ forall response data,
         network env (log ++ adapterRequests env statement)
           (gatewayRequest env (agents result))
         = Normal response ->
         ok response = true ->
         json_body response = Normal data ->
         data <> JNull ->
         lavaGatewayConsensus result
         = {| consensus_verdict := member data (Named "verdict");
              consensusScore := member data (Named "score") |}
         /\ isFalse result = is_string "false" (member data (Named "verdict"))
         /\ consensus result = label (member data (Named "verdict")).
Proof.
  intros Hkey.
  destruct (verifyStatement_run env statement log)
    as (c & f & g & b & l1 & l2 & l3 & l4 & outcome & l5 & info & l6 & H).
  destruct H as (Hc & Hf & Hg & Hb & _ & Ho & _ & Hrun).
  pose proof (adapters_log _ _ _ _ _ _ _ _ _ _ _ Hc Hf Hg Hb) as Hl4.
  eexists _, _. split; [exact Hrun |].
  cbn [agents lavaGatewayConsensus isFalse consensus].
  intros response data Hnet Hok Hbody Hdata.
  assert (Hout : outcome = {| consensus_verdict := member data (Named "verdict");
                              consensusScore := member data (Named "score") |}).
  { unfold getLavaGatewayConsensus in Ho. rewrite (missing_configured _ Hkey) in Ho.
    revert Ho. run_task. rewrite Hl4, Hnet, Hok. cbn [negb]. rewrite Hbody.
    destruct data; try congruence; cbn; intros Ho; by injection Ho as <- _. }
  subst outcome. repeat split.
Qed.

Lemma gateway_decides_witness :
  exists result log',
    verifyStatement strictGateway "The Earth is flat" [] = (Normal result, log')
    /\ (verdict <$> agents result)
       = [Str "inconclusive"; Str "false"; Str "inconclusive"; Str "inconclusive"]
    /\ lavaGatewayConsensus result
       = {| consensus_verdict := Str "false"; consensusScore := Num 1 |}
    /\ isFalse result = true
    /\ consensus result = verified_false.
Proof.
  destruct (gateway_decides strictGateway "The Earth is flat" [] ltac:(discriminate))
    as (result & log' & Hrun & Hgateway).
  exists result, log'. split; [exact Hrun |].
  assert (Hr : fst (verifyStatement strictGateway "The Earth is flat" []) = Normal result)
    by (by rewrite Hrun).
  vm_compute in Hr. injection Hr as <-.
  split; [reflexivity |].
  eapply (Hgateway _ (JObj [("verdict", JStr "false"); ("score", JNum 1)]));
    [vm_compute; reflexivity | reflexivity | reflexivity | discriminate].
Defined.

Lemma generateCorrectInformation_without_key env falseStatement agents log :
  anthropic_apiKey (apiConfig env) = "" ->
  exists text,
    text <> ""
    /\ generateCorrectInformation env falseStatement agents log = (Normal (Str text), log).
Proof.
  intros Hkey. unfold generateCorrectInformation, synthesize. rewrite Hkey.
  destruct (Nat.eqb _ _).
  - exists unavailable. split; [discriminate | reflexivity].
  - eexists. split; [| reflexivity]. discriminate.
Qed.

(** X10. The callers speak and show a correction only for a result whose
    consensus is verified_false. Without a Claude key every such result has
    one: a non-empty text of the synthesizer's own. *)
Theorem shownCorrection_gated (env : Env) (statement : string) (log : list Request) :
  exists result log',
    verifyStatement env statement log = (Normal result, log')
    /\ (consensus result <> verified_false -> shownCorrection result = None)
    /\ (anthropic_apiKey (apiConfig env) = "" ->
        consensus result = verified_false ->
        exists text, text <> "" /\ shownCorrection result = Some (Str text)).
Proof.
  destruct (verifyStatement_run env statement log)
    as (c & f & g & b & l1 & l2 & l3 & l4 & outcome & l5 & info & l6 & H).
  destruct H as (_ & _ & _ & _ & _ & _ & Hinfo & Hrun).
  eexists _, _. split; [exact Hrun |].
  unfold shownCorrection. cbn [isFalse consensus correctInformation].
  split.
  - intros Hlabel. destruct (is_string "false" (consensus_verdict outcome)) eqn:Hf;
      [| reflexivity].
    exfalso. apply Hlabel. by apply label_false.
  - intros Hkey Hlabel. apply label_false in Hlabel. rewrite Hlabel in Hinfo |- *.
    destruct (generateCorrectInformation_without_key env statement [c; f; g; b] l5 Hkey)
      as (text & Htext & Hgen).
    rewrite Hgen in Hinfo. injection Hinfo as <- _.
    exists text. split; [exact Htext |].
    cbn [andb truthy]. destruct text; [congruence | reflexivity].
Qed.

(** ** The configuration helpers *)

Lemma length_positive (s : string) : Nat.ltb 0 (String.length s) = negb (missing s).
Proof. by destruct s. Qed.

Lemma isApiConfigured_key cfg service :
  isApiConfigured cfg service = negb (missing (apiKeyOf cfg service)).
Proof. destruct service; apply length_positive. Qed.

(** X11. A service counts as configured exactly when its API key is not
    empty. Every entry of [apiConfig] has a string [apiKey], so the test on
    [baseUrl] is never reached: a service with a base URL (all have a
    default) and no key is not configured. *)
Theorem isApiConfigured_iff_key (cfg : WholeConfig) (service : Service) :
  isApiConfigured cfg service = true <-> apiKeyOf cfg service <> "".
Proof.
  rewrite isApiConfigured_key. unfold missing.
  destruct (String.eqb_spec (apiKeyOf cfg service) ""); cbn; split; congruence.
Qed.

(** X12. [getMissingConfigs] lists, in the order of its [required] list and
    without repetition, exactly the required services whose key is empty; it
    is empty exactly when the seven required keys are all set. ElevenLabs,
    Groq, Chroma, Composio and Janitor are never listed. *)
Theorem getMissingConfigs_spec (cfg : WholeConfig) :
  (forall service,
     service ∈ getMissingConfigs cfg
     <-> service ∈ required /\ apiKeyOf cfg service = "")
  /\ sublist (getMissingConfigs cfg) required
  /\ NoDup (getMissingConfigs cfg)
  /\ (getMissingConfigs cfg = []
      <-> forall service, service ∈ required -> apiKeyOf cfg service <> "").
Proof.
  assert (Hmem : forall service,
     service ∈ getMissingConfigs cfg
     <-> service ∈ required /\ apiKeyOf cfg service = "").
  { intros service. unfold getMissingConfigs.
    rewrite list_elem_of_In, List.filter_In, <- list_elem_of_In.
    rewrite isApiConfigured_key, negb_involutive. unfold missing.
    by rewrite String.eqb_eq. }
  assert (Hsub : sublist (getMissingConfigs cfg) required).
  { unfold getMissingConfigs. generalize required. intros l.
    induction l as [|x l IH]; cbn [List.filter]; [constructor |].
    destruct (negb _); by constructor. }
  split; [exact Hmem |]. split; [exact Hsub |]. split.
  - eapply sublist_NoDup; [| exact Hsub].
    unfold required. apply NoDup_ListNoDup.
    repeat (constructor; [cbn; intuition discriminate |]). constructor.
  - split.
    + intros Hnil service Hin Hkey.
      assert (service ∈ getMissingConfigs cfg) as Hm by (by apply Hmem).
      rewrite Hnil in Hm. by apply not_elem_of_nil in Hm.
    + intros Hall. destruct (getMissingConfigs cfg) as [|service l]; [reflexivity |].
      destruct (Hmem service) as [Hm _].
      destruct (Hm (list_elem_of_here _ _)) as [Hin Hkey].
      by destruct (Hall service Hin).
Qed.

(** X13. The configuration helper and the verification service agree: a
    verification provider that [isApiConfigured] reports as not configured is
    one whose call returns without a request, the adapters with the agent
    "API key not configured" and the gateway with the local consensus. *)
Theorem not_configured_means_no_request (env : Env) (rest : OtherConfig)
    (statement : string) (agents : list VerificationAgent) (log : list Request) :
  let cfg := {| verification := apiConfig env; others := rest |} in
  (isApiConfigured cfg anthropic = false ->
   verifyWithClaude env statement log
   = (Normal (notConfigured "Claude (Anthropic)"), log))
  /\ (isApiConfigured cfg fetchAI = false ->
      verifyWithFetchAI env statement log = (Normal (notConfigured "Fetch.ai"), log))
  /\ (isApiConfigured cfg gemini = false ->
      verifyWithGemini env statement log
      = (Normal (notConfigured "Gemini (Google)"), log))
  /\ (isApiConfigured cfg brightData = false ->
      verifyWithBrightData env statement log
      = (Normal (notConfigured "Bright Data"), log))
  /\ (isApiConfigured cfg lavaGateway = false ->
      getLavaGatewayConsensus env agents log
      = (Normal (calculateLocalConsensus agents), log)).
Proof.
  intros cfg. repeat split; intros H; rewrite isApiConfigured_key in H;
    apply negb_false_iff in H; subst cfg; cbn [apiKeyOf verification] in H.
  - unfold verifyWithClaude. by rewrite H.
  - unfold verifyWithFetchAI. by rewrite H.
  - unfold verifyWithGemini. by rewrite H.
  - unfold verifyWithBrightData. by rewrite H.
  - unfold getLavaGatewayConsensus. by rewrite H.
Qed.

Example getMissingConfigs_partial :
  getMissingConfigs
    {| verification := withKeys "claude-key" "" "gemini-key" "" "lava-key";
       others := otherKeys "" "fish-key" "" |}
  = [vapi; fetchAI; brightData].
Proof. reflexivity. Qed.

(** ** The classifier *)

Lemma append_empty (s : string) : "" +:+ s = s.
Proof. reflexivity. Qed.

Lemma append_String (c : ascii) (s t : string) : String c s +:+ t = String c (s +:+ t).
Proof. reflexivity. Qed.

Lemma append_empty_r (s : string) : s +:+ "" = s.
Proof. induction s as [|c s IH]; [done |]. by rewrite append_String, IH. Qed.

Lemma append_assoc (s t u : string) : (s +:+ t) +:+ u = s +:+ t +:+ u.
Proof. induction s as [|c s IH]; [done |]. by rewrite !append_String, IH. Qed.

Ltac string_step :=
  rewrite ?append_String, ?append_empty;
  cbn [isBlank isAscii trimStart trimEnd toLowerCase hasDigit includes endsWith].

Tactic Notation "string_step" "in" hyp(H) :=
  rewrite ?append_String, ?append_empty in H;
  cbn [isBlank isAscii trimStart trimEnd toLowerCase hasDigit includes endsWith] in H.

Lemma trimStart_blank (s : string) : isBlank s = true -> trimStart s = "".
Proof.
  induction s as [|c s IH]; string_step; [done |].
  intros [Hc Hs]%andb_true_iff. rewrite Hc. by apply IH.
Qed.

Lemma trimStart_app (s b : string) :
  trimStart (s +:+ b) = if isBlank s then trimStart b else trimStart s +:+ b.
Proof.
  induction s as [|c s IH]; string_step; [done |].
  destruct (isWhiteSpace c); cbn [andb]; [exact IH | done].
Qed.

Lemma trimEnd_blank (s : string) : isBlank s = true -> trimEnd s = "".
Proof.
  induction s as [|c s IH]; string_step; [done |].
  intros [Hc Hs]%andb_true_iff. by rewrite IH, Hc.
Qed.

Lemma trimEnd_not_blank (s : string) : isBlank s = false -> trimEnd s <> "".
Proof.
  induction s as [|c s IH]; string_step; [done |].
  intros [Hc | Hs]%andb_false_iff.
  - rewrite Hc. by destruct (trimEnd s).
  - specialize (IH Hs). by destruct (trimEnd s).
Qed.

Lemma trimEnd_app (s b : string) :
  trimEnd (s +:+ b)
  = match trimEnd b with "" => trimEnd s | kept => s +:+ kept end.
Proof.
  induction s as [|c s IH]; string_step.
  - by destruct (trimEnd b).
  - rewrite IH. destruct (trimEnd b) eqn:Hb; [done |].
    by destruct s.
Qed.

(** What [trim] leaves of a text around a phrase that neither starts nor
    ends with white space. *)
Lemma trim_around (a b : string) (c : ascii) (m : string) :
  isWhiteSpace c = false -> trimEnd (String c m) = String c m ->
  trim (a +:+ String c m +:+ b) = trimStart a +:+ String c m +:+ trimEnd b.
Proof.
  intros Hc Hm. unfold trim.
  assert (trimEnd (String c m +:+ b) = String c m +:+ trimEnd b) as Hend.
  { rewrite trimEnd_app, Hm. destruct (trimEnd b); [by rewrite append_empty_r | done]. }
  rewrite trimStart_app. destruct (isBlank a) eqn:Ha.
  - rewrite (trimStart_blank _ Ha), append_empty, append_String.
    cbn [trimStart]. rewrite Hc, <- append_String. exact Hend.
  - rewrite trimEnd_app, Hend. by rewrite append_String.
Qed.

Lemma trim_blank_around (a text b : string) :
  isBlank a = true -> isBlank b = true -> trim (a +:+ text +:+ b) = trim text.
Proof.
  intros Ha Hb. unfold trim.
  rewrite trimStart_app, Ha, trimStart_app.
  destruct (isBlank text) eqn:Ht.
  - by rewrite (trimStart_blank b), (trimStart_blank text).
  - by rewrite trimEnd_app, (trimEnd_blank _ Hb).
Qed.

Lemma toLowerCase_app (s t : string) :
  toLowerCase (s +:+ t) = toLowerCase s +:+ toLowerCase t.
Proof. induction s as [|c s IH]; string_step; [done |]. by rewrite IH. Qed.

Lemma toLowerChar_space (c : ascii) : isWhiteSpace (toLowerChar c) = isWhiteSpace c.
Proof. by destruct c as [[] [] [] [] [] [] [] []]. Qed.

Lemma toLowerChar_swapCase (c : ascii) : toLowerChar (swapCase c) = toLowerChar c.
Proof. by destruct c as [[] [] [] [] [] [] [] []]. Qed.

Lemma toLowerChar_digit (c : ascii) : isDigit (toLowerChar c) = isDigit c.
Proof. by destruct c as [[] [] [] [] [] [] [] []]. Qed.

Lemma digit_not_space (c : ascii) : isWhiteSpace c = true -> isDigit c = false.
Proof. by destruct c as [[] [] [] [] [] [] [] []]. Qed.

Lemma toLowerCase_trimStart (s : string) :
  toLowerCase (trimStart s) = trimStart (toLowerCase s).
Proof.
  induction s as [|c s IH]; string_step; [done |].
  rewrite toLowerChar_space. destruct (isWhiteSpace c); [exact IH | done].
Qed.

Lemma toLowerCase_trimEnd (s : string) :
  toLowerCase (trimEnd s) = trimEnd (toLowerCase s).
Proof.
  induction s as [|c s IH]; string_step; [done |].
  rewrite <- IH, toLowerChar_space.
  destruct (trimEnd s); string_step; [| done].
  by destruct (isWhiteSpace c).
Qed.

Lemma toLowerCase_trim (s : string) : toLowerCase (trim s) = trim (toLowerCase s).
Proof. unfold trim. by rewrite toLowerCase_trimEnd, toLowerCase_trimStart. Qed.

Lemma recased_toLowerCase (s t : string) :
  recased s t -> toLowerCase s = toLowerCase t.
Proof.
  induction 1 as [| c s t _ IH | c s t _ IH]; string_step; [done | |];
    by rewrite ?toLowerChar_swapCase, IH.
Qed.

Lemma recased_refl (s : string) : recased s s.
Proof. induction s; by constructor. Qed.

Lemma recased_app (s s' t t' : string) :
  recased s s' -> recased t t' -> recased (s +:+ t) (s' +:+ t').
Proof. induction 1; intros; rewrite ?append_String, ?append_empty; by try constructor; auto. Qed.

Lemma classifyStatementType_normalized (s t : string) :
  toLowerCase (trim s) = toLowerCase (trim t) ->
  classifyStatementType s = classifyStatementType t.
Proof. unfold classifyStatementType. by intros ->. Qed.

Lemma startsWith_app (p s : string) : startsWith (p +:+ s) p = true.
Proof.
  unfold startsWith. induction p as [|c p IH]; rewrite ?append_String, ?append_empty.
  - by destruct s.
  - cbn [String.prefix]. by destruct (ascii_dec c c).
Qed.

Lemma includes_app (a m b : string) : includes (a +:+ m +:+ b) m = true.
Proof.
  induction a as [|c a IH]; rewrite ?append_String, ?append_empty.
  - destruct (m +:+ b) eqn:H; cbn [includes]; rewrite <- H;
      by rewrite startsWith_app.
  - cbn [includes]. by rewrite IH, orb_true_r.
Qed.

Lemma endsWith_app (a p : string) : endsWith (a +:+ p) p = true.
Proof.
  induction a as [|c a IH]; rewrite ?append_String, ?append_empty.
  - destruct p; cbn [endsWith]; by rewrite String.eqb_refl.
  - cbn [endsWith]. by rewrite IH, orb_true_r.
Qed.

Lemma hasDigit_trimStart (s : string) : hasDigit (trimStart s) = hasDigit s.
Proof.
  induction s as [|c s IH]; string_step; [done |].
  destruct (isWhiteSpace c) eqn:Hc; [| done].
  by rewrite (digit_not_space _ Hc).
Qed.

Lemma hasDigit_trimEnd (s : string) : hasDigit (trimEnd s) = hasDigit s.
Proof.
  induction s as [|c s IH]; string_step; [done |].
  rewrite <- IH. destruct (trimEnd s); string_step; [| done].
  destruct (isWhiteSpace c) eqn:Hc; [| by string_step].
  by rewrite (digit_not_space _ Hc).
Qed.

Lemma hasDigit_toLowerCase (s : string) : hasDigit (toLowerCase s) = hasDigit s.
Proof. induction s as [|c s IH]; string_step; [done |]. by rewrite toLowerChar_digit, IH. Qed.

(** X14. A text whose last character that is not white space is a question
    mark is a question, whatever comes before it. *)
Theorem question_mark_is_question (text blanks : string) :
  isAscii text = true -> isBlank blanks = true ->
  classifyStatementType (text +:+ "?" +:+ blanks) = question.
Proof.
  intros _ Hb. unfold classifyStatementType.
  rewrite (trim_around text blanks "?" "") by done.
  rewrite (trimEnd_blank _ Hb), toLowerCase_app.
  change (toLowerCase ("?" +:+ "")) with "?".
  by rewrite endsWith_app.
Qed.

Lemma question_mark_is_question_witness :
  classifyStatementType "The Earth is flat, right? " = question.
Proof. apply (question_mark_is_question "The Earth is flat, right" " "); reflexivity. Defined.

Lemma normalized_after_word (c : ascii) (m rest : string) :
  isWhiteSpace c = false -> trimEnd (String c m) = String c m ->
  toLowerCase (String c m) = String c m ->
  toLowerCase (trim (String c m +:+ " " +:+ rest))
  = if isBlank rest then String c m
    else (String c m +:+ " ") +:+ toLowerCase (trimEnd rest).
Proof.
  intros Hc Hm Hlow.
  rewrite <- (append_empty (String c m +:+ " " +:+ rest)).
  rewrite (trim_around "" (" " +:+ rest) c m Hc Hm).
  cbn [trimStart]. rewrite append_empty, toLowerCase_app, Hlow.
  rewrite trimEnd_app. cbn [trimEnd isWhiteSpace Ascii.is_space].
  destruct (isBlank rest) eqn:Hrest.
  - by rewrite (trimEnd_blank _ Hrest), append_empty_r.
  - pose proof (trimEnd_not_blank _ Hrest) as Hkept.
    destruct (trimEnd rest) as [|d kept] eqn:Hk; [done |].
    by rewrite toLowerCase_app, append_assoc.
Qed.

(** X15. A text that starts with one of the twelve question words and a
    space is a question when something other than white space follows, even
    if what follows reads as an opinion or a fact; the word alone, with
    white space after it, is classified [other]. *)
Theorem question_word_needs_more (word rest : string) :
  word ∈ questionWords -> isAscii rest = true ->
  classifyStatementType (word +:+ " " +:+ rest)
  = if isBlank rest then other else question.
Proof.
  intros Hword _. unfold classifyStatementType, questionWords in *.
  repeat (apply elem_of_cons in Hword as [-> | Hword];
          [rewrite normalized_after_word by done;
           destruct (isBlank rest); [reflexivity |];
           match goal with
           | |- context [?w +:+ " "] =>
               let p := eval cbv in (w +:+ " ") in
               change (w +:+ " ") with p; rewrite (startsWith_app p)
           end; by rewrite ?orb_true_r |]).
  by apply not_elem_of_nil in Hword.
Qed.

Lemma question_word_needs_more_witness :
  classifyStatementType "is water wet" = question
  /\ classifyStatementType "is  " = other.
Proof.
  split.
  - apply (question_word_needs_more "is" "water wet"); [| reflexivity].
    unfold questionWords. repeat first [apply list_elem_of_here | apply list_elem_of_further].
  - apply (question_word_needs_more "is" " "); [| reflexivity].
    unfold questionWords. repeat first [apply list_elem_of_here | apply list_elem_of_further].
Defined.

(** X16. White space around a text does not change its class, and a text of
    white space only (the empty text included) is classified [other]. *)
Theorem surrounding_space_ignored (before text after : string) :
  isAscii text = true -> isBlank before = true -> isBlank after = true ->
  classifyStatementType (before +:+ text +:+ after) = classifyStatementType text
  /\ (isBlank text = true -> classifyStatementType text = other).
Proof.
  intros _ Hb Ha. split.
  - apply classifyStatementType_normalized. by rewrite trim_blank_around.
  - intros Ht. unfold classifyStatementType, trim.
    by rewrite (trimStart_blank _ Ht).
Qed.

Lemma surrounding_space_ignored_witness :
  classifyStatementType "  The sky is green " = classifyStatementType "The sky is green".
Proof.
  apply (surrounding_space_ignored "  " "The sky is green" " "); reflexivity.
Defined.

(** X17. The class of a text does not depend on the case of its letters. *)
Theorem letter_case_ignored (text text' : string) :
  isAscii text = true -> recased text text' ->
  classifyStatementType text' = classifyStatementType text.
Proof.
  intros _ H. apply classifyStatementType_normalized.
  by rewrite !toLowerCase_trim, (recased_toLowerCase _ _ H).
Qed.

Lemma letter_case_ignored_witness :
  classifyStatementType "I Think so" = classifyStatementType "i think so".
Proof.
  apply (letter_case_ignored "i think so" "I Think so"); [reflexivity |].
  apply (recased_swap "i"), recased_same, (recased_swap "t").
  apply recased_refl.
Defined.

(** X18. A text with a digit in it is never classified [other]: it is a
    question, an opinion or, failing both, declarative. *)
Theorem digits_are_classified (text : string) :
  isAscii text = true -> hasDigit text = true ->
  classifyStatementType text <> other.
Proof.
  intros _ Hd. unfold classifyStatementType.
  assert (hasDigit (toLowerCase (trim text)) = true) as ->.
  { unfold trim. by rewrite hasDigit_toLowerCase, hasDigit_trimEnd, hasDigit_trimStart. }
  rewrite !orb_true_r.
  by repeat match goal with |- context [if ?b then _ else _] => destruct b end.
Qed.

Lemma digits_are_classified_witness :
  classifyStatementType "Route 66" <> other.
Proof. apply (digits_are_classified "Route 66"); reflexivity. Defined.

Lemma includes_marker (a b : string) (c : ascii) (m : string) :
  isWhiteSpace c = false -> trimEnd (String c m) = String c m ->
  toLowerCase (String c m) = String c m ->
  includes (toLowerCase (trim (a +:+ String c m +:+ b))) (String c m) = true.
Proof.
  intros Hc Hm Hlow.
  rewrite (trim_around a b c m Hc Hm), !toLowerCase_app, Hlow.
  apply includes_app.
Qed.

(** X19. A text that contains one of the opinion phrases "i think",
    "i believe", "in my opinion", "i feel", "i prefer", "should be" or
    "ought to", in any letter case and anywhere, is never taken for a
    declarative statement (nor [other]): it is an opinion unless a question
    pattern applies first. *)
Theorem opinion_phrase_not_declarative (before phrase phrase' after : string) :
  isAscii before = true -> isAscii after = true ->
  phrase ∈ opinionMarkers -> recased phrase phrase' ->
  classifyStatementType (before +:+ phrase' +:+ after) = opinion
  \/ classifyStatementType (before +:+ phrase' +:+ after) = question.
Proof.
  intros _ _ Hin Hcase.
  rewrite (classifyStatementType_normalized _ (before +:+ phrase +:+ after)).
  2: { rewrite !toLowerCase_trim. f_equal. symmetry. apply recased_toLowerCase.
       apply recased_app; [apply recased_refl |].
       by apply recased_app; [| apply recased_refl]. }
  unfold classifyStatementType, opinionMarkers in *.
  destruct (orb _ _) ; [by right | left].
  repeat (apply elem_of_cons in Hin as [-> | Hin];
          [rewrite includes_marker by done; by rewrite ?orb_true_r |]).
  by apply not_elem_of_nil in Hin.
Qed.

Lemma opinion_phrase_not_declarative_witness :
  classifyStatementType "Well, I think the moon is made of cheese" = opinion
  \/ classifyStatementType "Well, I think the moon is made of cheese" = question.
Proof.
  apply (opinion_phrase_not_declarative
           "Well, " "i think" "I think" " the moon is made of cheese");
    [reflexivity | reflexivity | apply list_elem_of_here |].
  apply (recased_swap "i"), recased_refl.
Defined.

(** ** Speaking *)

Lemma speakWithBrowser_requests env text stage :
  requests (snd (speakWithBrowser env text stage)) = requests stage.
Proof. unfold speakWithBrowser, sound. by destruct (speechError _). Qed.

Lemma recorded_requests env (request : Request) (error : Response -> string) stage :
  requests (snd (andThen (onNetwork (fetch (voiceNetwork env) request))
    (fun response =>
       if negb (ok response)
       then onNetwork (throw (ErrorObject (error response)))
       else andThen (onNetwork (lift (blobOf (browser env) response)))
              (playAudioBlob env)) stage))
  = requests stage ++ [request].
Proof.
  unfold andThen, onNetwork, fetch, throw, lift, playAudioBlob, sound.
  destruct (voiceNetwork env _ _) as [response|e]; cbn; [| done].
  destruct (ok response); cbn; [| done].
  by destruct (blobOf _ _).
Qed.

Lemma orCatch_requests {A} (c : Voice A) (handler : thrown -> Voice A) stage :
  (forall e stage', requests (snd (handler e stage')) = requests stage') ->
  requests (snd (orCatch c handler stage)) = requests (snd (c stage)).
Proof.
  intros H. unfold orCatch. destruct (c stage) as [[a|e] stage']; cbn; [done |].
  apply H.
Qed.

(** X20. [speak] issues at most one request: to the speech endpoint of the
    chosen provider (FishAudio when none is given), and only when that
    provider's key is set. It never turns to the other provider and
    never repeats a request. *)
Theorem speak_requests (env : VoiceEnv) (text : string) (provider : option Provider)
    (stage : Stage) :
  let chosen := default fishaudio provider in
  requests (snd (speak env text provider stage))
  = requests stage ++ ifConfigured (speechKey env chosen) (speechRequest env chosen text).
Proof.
  intros chosen. subst chosen. unfold speak.
  rewrite orCatch_requests by (intros; apply speakWithBrowser_requests).
  unfold ifConfigured, speechKey, speechRequest.
  destruct provider as [[]|]; cbn [from_option id isProvider andb];
    match goal with |- context [missing ?k] => destruct (missing k) end;
    cbn [negb andb]; rewrite ?app_nil_r;
    first [apply speakWithBrowser_requests | apply recorded_requests].
Qed.

Lemma recorded_sounds env (request : Request) (error : Response -> string) text stage :
  speechError (browser env) = None ->
  let run :=
    orCatch
      (andThen (onNetwork (fetch (voiceNetwork env) request))
         (fun response =>
            if negb (ok response)
            then onNetwork (throw (ErrorObject (error response)))
            else andThen (onNetwork (lift (blobOf (browser env) response)))
                   (playAudioBlob env)))
      (fun _ => speakWithBrowser env text) stage in
  fst run = Normal tt
  /\ sounds (snd run)
     = sounds stage
       ++ match recording env (requests stage) request with
          | Some blob =>
              match playback (browser env) blob with
              | Normal _ => [Audio blob]
              | Throw _ => [Audio blob; Utterance text]
              end
          | None => [Utterance text]
          end.
Proof.
  intros Hspeech.
  unfold orCatch, andThen, onNetwork, fetch, throw, lift, playAudioBlob, sound,
    speakWithBrowser, recording.
  rewrite Hspeech.
  destruct (voiceNetwork env _ _) as [response|e]; cbn; [| done].
  destruct (ok response); cbn; [| done].
  destruct (blobOf _ _) as [blob|e]; cbn; [| done].
  destruct (playback _ _) as [[]|e]; cbn; [done |].
  by rewrite <- app_assoc.
Qed.

(** X21. Where the browser has speech synthesis, [speak] never rejects and
    the text is always voiced: without the chosen provider's key the browser
    speaks it; with the key, the provider's recording is played, and the
    browser speaks the text exactly when there is no recording (the request
    failed, the answer was not ok, its body could not be read) or when
    playing it failed. A recording played to its end is never followed by
    the browser's voice. *)
Theorem speak_voices_text (env : VoiceEnv) (text : string)
    (provider : option Provider) (stage : Stage) :
  speechError (browser env) = None ->
  let chosen := default fishaudio provider in
  let run := speak env text provider stage in
  fst run = Normal tt
  /\ sounds (snd run)
     = sounds stage
       ++ if missing (speechKey env chosen) then [Utterance text]
          else match recording env (requests stage) (speechRequest env chosen text) with
               | Some blob =>
                   match playback (browser env) blob with
                   | Normal _ => [Audio blob]
                   | Throw _ => [Audio blob; Utterance text]
                   end
               | None => [Utterance text]
               end.
Proof.
  intros Hspeech chosen run. subst chosen run. unfold speak, speechKey, speechRequest.
  destruct provider as [[]|]; cbn [from_option id isProvider andb];
    match goal with |- context [missing ?k] => destruct (missing k) end;
    cbn [negb andb];
    try (by apply recorded_sounds);
    unfold orCatch, speakWithBrowser, sound; by rewrite Hspeech.
Qed.

Lemma speak_voices_text_witness :
  fst (speak (studio (Throw offline)) "The Earth is round." None emptyStage) = Normal tt
  /\ sounds (snd (speak (studio (Throw offline)) "The Earth is round." None emptyStage))
     = [Utterance "The Earth is round."].
Proof.
  exact (speak_voices_text (studio (Throw offline)) "The Earth is round." None
           emptyStage eq_refl).
Defined.
